(** * Creative Suite front-end: Image Studio, Storyboard AI and the shell

    A shallow embedding of the three React components
    ([App], [ImageStudio], [StoryboardGenerator]) and of the JavaScript
    string primitives their handlers rely on, followed by the properties
    of the storyboard pipeline, the validation guards and the shell. *)

From Stdlib Require Import List Arith NArith Bool Lia String Ascii.
From Stdlib Require Import DecimalString Setoid.
Import ListNotations.

Set Implicit Arguments.

(** ** JavaScript strings

    A JavaScript string is a sequence of UTF-16 code units. *)

Module JS.

Abbreviation jsstring := (list N).

(** Literals are written as Rocq strings of ASCII characters. *)
Definition lit (s : string) : jsstring :=
  map N_of_ascii (list_ascii_of_string s).

(** [===] on strings. *)
Fixpoint str_eqb (a b : jsstring) : bool :=
  match a, b with
  | [], [] => true
  | x :: a', y :: b' => N.eqb x y && str_eqb a' b'
  | _, _ => false
  end.

(** The code units removed by [String.prototype.trim]: ECMAScript
    WhiteSpace (TAB, VT, FF, SP, NBSP, ZWNBSP and the other members of
    Unicode category Zs) and LineTerminator (LF, CR, LS, PS). *)
Definition is_ws (c : N) : bool :=
  (N.eqb c 9 || N.eqb c 10 || N.eqb c 11 || N.eqb c 12 || N.eqb c 13
   || N.eqb c 32 || N.eqb c 160 || N.eqb c 5760
   || (N.leb 8192 c && N.leb c 8202)
   || N.eqb c 8232 || N.eqb c 8233 || N.eqb c 8239 || N.eqb c 8287
   || N.eqb c 12288 || N.eqb c 65279)%bool.

Fixpoint trimStart (s : jsstring) : jsstring :=
  match s with
  | [] => []
  | c :: r => if is_ws c then trimStart r else s
  end.

Definition trimEnd (s : jsstring) : jsstring := rev (trimStart (rev s)).

(** [s.trim()] *)
Definition trim (s : jsstring) : jsstring := trimEnd (trimStart s).

(** Truthiness of a string: only the empty string is falsy. *)
Definition truthy (s : jsstring) : bool :=
  match s with [] => false | _ :: _ => true end.

(** [s.split(sep)] for a one-code-unit separator, as the non-empty list
    (first field, remaining fields). *)
Fixpoint split_fields (sep : N) (s : jsstring) : jsstring * list jsstring :=
  match s with
  | [] => ([], [])
  | c :: r =>
      let '(h, t) := split_fields sep r in
      if N.eqb c sep then ([], h :: t) else (c :: h, t)
  end.

Definition split (sep : N) (s : jsstring) : list jsstring :=
  let '(h, t) := split_fields sep s in h :: t.

(** [String(n)] for a non-negative integer such as an array length. *)
Definition of_nat (n : nat) : jsstring :=
  lit (NilEmpty.string_of_uint (Nat.to_uint n)).

Definition LF : N := 10.
Definition BAR : N := 124.
Definition DQUOTE : N := 34.

(** Text before the first occurrence of [sep] (all of it when there is
    none) and text after it (when there is one). *)
Fixpoint before_first (sep : N) (s : jsstring) : jsstring :=
  match s with
  | [] => []
  | c :: r => if N.eqb c sep then [] else c :: before_first sep r
  end.

Fixpoint after_first (sep : N) (s : jsstring) : option jsstring :=
  match s with
  | [] => None
  | c :: r => if N.eqb c sep then Some r else after_first sep r
  end.

End JS.

Import JS.

(** ** types.ts *)

(** A [File] handle: only its MIME type is ever read. *)
Record File := { file_type : jsstring; file_handle : nat }.

Record UploadedImage := { ui_file : File; ui_base64 : jsstring }.

Record CharacterReference := {
  cr_base64 : jsstring;
  cr_mimeType : jsstring;
  cr_file : option File
}.

Record StoryboardPanel := {
  id : jsstring;
  src : jsstring;
  prompt : jsstring
}.

(** ** The generative-image service (@google/genai)

    Only the request fields the components set and the response fields
    they read are kept. *)

Record InlineData := { data : jsstring; mimeType : jsstring }.

Inductive Part :=
| InlineDataPart (inlineData : InlineData)
| TextPart (text : jsstring).

Inductive Modality := IMAGE.

Record Request := {
  model : jsstring;
  parts : list Part;
  responseModalities : list Modality
}.

(** [response.candidates?.[0]?.content?.parts]: every level may be
    absent, and a returned part may or may not carry [inlineData]. *)
Record ResponsePart := { rp_inlineData : option InlineData }.
Record Content := { content_parts : option (list ResponsePart) }.
Record Candidate := { content : option Content }.
Record Response := { candidates : option (list Candidate) }.

(** A thrown value: an [Error] with its message, or anything else. *)
Inductive Thrown :=
| ThrownError (message : jsstring)
| ThrownOther.

Inductive CallResult :=
| Returned (response : Response)
| Rejected (e : Thrown).

(** What the outside world answers during one handler invocation:
    whether [new GoogleGenAI(...)] throws, what the n-th
    [generateContent] call (counted from 0) does with its request, and
    the n-th value of [`${new Date().toISOString()}-${Math.random()}`]. *)
Record Env := {
  new_GoogleGenAI : option Thrown;
  generateContent : nat -> Request -> CallResult;
  date_random : nat -> jsstring
}.

(** [response.candidates?.[0]?.content?.parts?.find(part => part.inlineData)]
    followed by [imagePart?.inlineData]. *)
Definition is_some {A} (o : option A) : bool :=
  match o with Some _ => true | None => false end.

Definition imagePart (response : Response) : option ResponsePart :=
  match candidates response with
  | Some (c :: _) =>
      match content c with
      | Some ct =>
          match content_parts ct with
          | Some ps => find (fun part => is_some (rp_inlineData part)) ps
          | None => None
          end
      | None => None
      end
  | _ => None
  end.

Definition imagePart_inlineData (response : Response) : option InlineData :=
  match imagePart response with
  | Some part => rp_inlineData part
  | None => None
  end.

(** [`data:${mimeType};base64,${data}`] *)
Definition data_url (d : InlineData) : jsstring :=
  lit "data:" ++ mimeType d ++ lit ";base64," ++ data d.

(** [e instanceof Error ? e.message : fallback] *)
Definition error_message (e : Thrown) (fallback : jsstring) : jsstring :=
  match e with
  | ThrownError m => m
  | ThrownOther => fallback
  end.

Definition MODEL : jsstring := lit "gemini-2.5-flash-image".

(** ** Handlers as state-and-exception computations

    A handler runs against the component state [St]; what it does to the
    outside is recorded in a trace: every [generateContent] request and
    every value given to [setStoryboard], in the order they happen. A
    thrown value keeps the state reached so far. One invocation of a
    handler is followed from its start to its end, with no other
    handler running in between. *)

Inductive Event :=
| EvCall (req : Request)
| EvStoryboard (panels : list StoryboardPanel).

Record World (St : Type) := {
  state : St;
  trace : list Event;
  ncalls : nat;
  nids : nat
}.

Inductive Completion (A : Type) :=
| Normal (a : A)
| Throw (e : Thrown).
Arguments Throw {A} e.

Definition M (St A : Type) := World St -> World St * Completion A.

Definition ret {St A} (a : A) : M St A := fun w => (w, Normal a).

Definition bind {St A B} (m : M St A) (k : A -> M St B) : M St B :=
  fun w =>
    match m w with
    | (w', Normal a) => k a w'
    | (w', Throw e) => (w', Throw e)
    end.

Definition throw {St A} (e : Thrown) : M St A := fun w => (w, Throw e).

Declare Scope handler_scope.
Delimit Scope handler_scope with handler.
Notation "x <- m ;; k" := (bind m (fun x => k))
  (at level 100, m at next level, right associativity) : handler_scope.
Notation "m ;; k" := (bind m (fun _ => k))
  (at level 100, right associativity) : handler_scope.
Local Open Scope handler_scope.

(** [try { body } catch (e) { handler e } finally { fin }] *)
Definition try_catch_finally {St}
  (body : M St unit) (handler : Thrown -> M St unit) (fin : M St unit) : M St unit :=
  fun w =>
    let '(w1, c1) :=
      match body w with
      | (w', Normal a) => (w', Normal a)
      | (w', Throw e) => handler e w'
      end in
    match fin w1 with
    | (w2, Normal _) => (w2, c1)
    | (w2, Throw e) => (w2, Throw e)
    end.

(** A React state setter: replace the component state. *)
Definition on_state {St} (f : St -> St) (w : World St) : World St :=
  {| state := f (state w); trace := trace w;
     ncalls := ncalls w; nids := nids w |}.

Definition modify {St} (f : St -> St) : M St unit :=
  fun w => (on_state f w, Normal tt).

Definition emit {St} (e : Event) : M St unit :=
  fun w => ({| state := state w; trace := trace w ++ [e];
               ncalls := ncalls w; nids := nids w |}, Normal tt).

(** [new GoogleGenAI({ apiKey })] *)
Definition newGoogleGenAI {St} (env : Env) : M St unit :=
  match new_GoogleGenAI env with
  | Some e => throw e
  | None => ret tt
  end.

(** [await ai.models.generateContent(req)] *)
Definition await_generateContent {St} (env : Env) (req : Request) : M St Response :=
  fun w =>
    let w' := {| state := state w; trace := trace w ++ [EvCall req];
                 ncalls := S (ncalls w); nids := nids w |} in
    match generateContent env (ncalls w) req with
    | Returned r => (w', Normal r)
    | Rejected e => (w', Throw e)
    end.

(** [`${new Date().toISOString()}-${Math.random()}`] *)
Definition fresh_id {St} (env : Env) : M St jsstring :=
  fun w => ({| state := state w; trace := trace w;
               ncalls := ncalls w; nids := S (nids w) |},
            Normal (date_random env (nids w))).

Definition init_world {St} (st : St) : World St :=
  {| state := st; trace := []; ncalls := 0; nids := 0 |}.

Definition calls_of (tr : list Event) : list Request :=
  flat_map (fun e => match e with EvCall r => [r] | EvStoryboard _ => [] end) tr.

Definition published_of (tr : list Event) : list (list StoryboardPanel) :=
  flat_map (fun e => match e with EvCall _ => [] | EvStoryboard l => [l] end) tr.

(** The state variables a handler closes over have the values of the
    render in which it is invoked. *)
Definition get {St} : M St St := fun w => (w, Normal (state w)).

(** ** components/ImageStudio.tsx *)

Module ImageStudio.

Record State := {
  prompt : jsstring;
  inputImage : option UploadedImage;
  outputImage : option jsstring;
  isLoading : bool;
  error : option jsstring
}.

(** The [useState] initial values. *)
Definition initial : State :=
  {| prompt := []; inputImage := None; outputImage := None;
     isLoading := false; error := None |}.

Definition with_prompt (v : jsstring) (st : State) : State :=
  {| prompt := v; inputImage := inputImage st; outputImage := outputImage st;
     isLoading := isLoading st; error := error st |}.

Definition with_inputImage (v : option UploadedImage) (st : State) : State :=
  {| prompt := prompt st; inputImage := v; outputImage := outputImage st;
     isLoading := isLoading st; error := error st |}.

Definition with_outputImage (v : option jsstring) (st : State) : State :=
  {| prompt := prompt st; inputImage := inputImage st; outputImage := v;
     isLoading := isLoading st; error := error st |}.

Definition with_isLoading (v : bool) (st : State) : State :=
  {| prompt := prompt st; inputImage := inputImage st;
     outputImage := outputImage st; isLoading := v; error := error st |}.

Definition with_error (v : option jsstring) (st : State) : State :=
  {| prompt := prompt st; inputImage := inputImage st;
     outputImage := outputImage st; isLoading := isLoading st; error := v |}.

Definition setPrompt (v : jsstring) : M State unit := modify (with_prompt v).
Definition setInputImage (v : option UploadedImage) : M State unit :=
  modify (with_inputImage v).
Definition setOutputImage (v : option jsstring) : M State unit :=
  modify (with_outputImage v).
Definition setIsLoading (v : bool) : M State unit := modify (with_isLoading v).
Definition setError (v : option jsstring) : M State unit := modify (with_error v).

Definition handleImageUpload (image : UploadedImage) : M State unit :=
  setInputImage (Some image) ;;
  setOutputImage None ;;
  setError None.

Definition handleClearImage : M State unit :=
  setInputImage None.

(** The [parts] array of the request: the input image first, when there
    is one, then the prompt text. *)
Definition request_parts (inputImage : option UploadedImage) (prompt : jsstring)
  : list Part :=
  match inputImage with
  | Some img =>
      [InlineDataPart {| data := ui_base64 img; mimeType := file_type (ui_file img) |}]
  | None => []
  end ++ [TextPart prompt].

Definition handleGenerate (env : Env) : M State unit :=
  st <- get ;;
  if negb (truthy (trim (prompt st))) then
    setError (Some (lit "Please enter a prompt."))
  else
    setIsLoading true ;;
    setError None ;;
    setOutputImage None ;;
    try_catch_finally
      (newGoogleGenAI env ;;
       response <- await_generateContent env
         {| model := MODEL;
            parts := request_parts (inputImage st) (prompt st);
            responseModalities := [IMAGE] |} ;;
       match imagePart_inlineData response with
       | Some d => setOutputImage (Some (data_url d))
       | None =>
           throw (ThrownError
             (lit "Image generation failed. The model did not return an image."))
       end)
      (fun e => setError (Some (error_message e (lit "An unknown error occurred."))))
      (setIsLoading false).

End ImageStudio.

(** ** components/StoryboardGenerator.tsx *)

Module StoryboardGenerator.

Inductive Mode := upload | describe.

Record State := {
  character : option CharacterReference;
  characterCreationMode : Mode;
  characterDescription : jsstring;
  isCreatingCharacter : bool;
  script : jsstring;
  storyboard : list StoryboardPanel;
  isLoading : bool;
  error : option jsstring
}.

(** The [useState] initial values. *)
Definition initial : State :=
  {| character := None; characterCreationMode := upload;
     characterDescription := []; isCreatingCharacter := false;
     script := []; storyboard := []; isLoading := false; error := None |}.

Definition with_character (v : option CharacterReference) (st : State) : State :=
  {| character := v;
     characterCreationMode := characterCreationMode st;
     characterDescription := characterDescription st;
     isCreatingCharacter := isCreatingCharacter st;
     script := script st;
     storyboard := storyboard st;
     isLoading := isLoading st;
     error := error st |}.

Definition with_characterCreationMode (v : Mode) (st : State) : State :=
  {| character := character st;
     characterCreationMode := v;
     characterDescription := characterDescription st;
     isCreatingCharacter := isCreatingCharacter st;
     script := script st;
     storyboard := storyboard st;
     isLoading := isLoading st;
     error := error st |}.

Definition with_characterDescription (v : jsstring) (st : State) : State :=
  {| character := character st;
     characterCreationMode := characterCreationMode st;
     characterDescription := v;
     isCreatingCharacter := isCreatingCharacter st;
     script := script st;
     storyboard := storyboard st;
     isLoading := isLoading st;
     error := error st |}.

Definition with_isCreatingCharacter (v : bool) (st : State) : State :=
  {| character := character st;
     characterCreationMode := characterCreationMode st;
     characterDescription := characterDescription st;
     isCreatingCharacter := v;
     script := script st;
     storyboard := storyboard st;
     isLoading := isLoading st;
     error := error st |}.

Definition with_script (v : jsstring) (st : State) : State :=
  {| character := character st;
     characterCreationMode := characterCreationMode st;
     characterDescription := characterDescription st;
     isCreatingCharacter := isCreatingCharacter st;
     script := v;
     storyboard := storyboard st;
     isLoading := isLoading st;
     error := error st |}.

Definition with_storyboard (v : list StoryboardPanel) (st : State) : State :=
  {| character := character st;
     characterCreationMode := characterCreationMode st;
     characterDescription := characterDescription st;
     isCreatingCharacter := isCreatingCharacter st;
     script := script st;
     storyboard := v;
     isLoading := isLoading st;
     error := error st |}.

Definition with_isLoading (v : bool) (st : State) : State :=
  {| character := character st;
     characterCreationMode := characterCreationMode st;
     characterDescription := characterDescription st;
     isCreatingCharacter := isCreatingCharacter st;
     script := script st;
     storyboard := storyboard st;
     isLoading := v;
     error := error st |}.

Definition with_error (v : option jsstring) (st : State) : State :=
  {| character := character st;
     characterCreationMode := characterCreationMode st;
     characterDescription := characterDescription st;
     isCreatingCharacter := isCreatingCharacter st;
     script := script st;
     storyboard := storyboard st;
     isLoading := isLoading st;
     error := v |}.

Definition setCharacter (v : option CharacterReference) : M State unit :=
  modify (with_character v).
Definition setCharacterCreationMode (v : Mode) : M State unit :=
  modify (with_characterCreationMode v).
Definition setCharacterDescription (v : jsstring) : M State unit :=
  modify (with_characterDescription v).
Definition setIsCreatingCharacter (v : bool) : M State unit :=
  modify (with_isCreatingCharacter v).
Definition setScript (v : jsstring) : M State unit :=
  modify (with_script v).
Definition setIsLoading (v : bool) : M State unit :=
  modify (with_isLoading v).
Definition setError (v : option jsstring) : M State unit :=
  modify (with_error v).

(** [setStoryboard(prev => f(prev))]; the value that becomes the panel
    list is recorded in the trace. *)
Definition setStoryboardWith
  (f : list StoryboardPanel -> list StoryboardPanel) : M State unit :=
  st <- get ;;
  modify (with_storyboard (f (storyboard st))) ;;
  emit (EvStoryboard (f (storyboard st))).

(** [setStoryboard(v)] *)
Definition setStoryboard (v : list StoryboardPanel) : M State unit :=
  setStoryboardWith (fun _ => v).

Definition handleImageUpload (image : UploadedImage) : M State unit :=
  setCharacter (Some {| cr_base64 := ui_base64 image;
                        cr_mimeType := file_type (ui_file image);
                        cr_file := Some (ui_file image) |}) ;;
  setStoryboard [] ;;
  setError None.

Definition handleClearCharacter : M State unit :=
  setCharacter None ;;
  setStoryboard [] ;;
  setCharacterDescription [].

Definition character_prompt (characterDescription : jsstring) : jsstring :=
  lit "Create a character reference sheet for an anime character. The character is: "
  ++ characterDescription
  ++ lit ". The background should be a neutral gray. The character should be in a full-body standing pose, facing forward. High quality, clean line art, vibrant colors.".

Definition handleCreateCharacter (env : Env) : M State unit :=
  st <- get ;;
  if negb (truthy (trim (characterDescription st))) then
    setError (Some (lit "Please describe the character you want to create."))
  else
    setIsCreatingCharacter true ;;
    setError None ;;
    try_catch_finally
      (newGoogleGenAI env ;;
       response <- await_generateContent env
         {| model := MODEL;
            parts := [TextPart (character_prompt (characterDescription st))];
            responseModalities := [IMAGE] |} ;;
       match imagePart_inlineData response with
       | Some d =>
           setCharacter (Some {| cr_base64 := data d; cr_mimeType := mimeType d;
                                 cr_file := None |}) ;;
           setStoryboard []
       | None =>
           throw (ThrownError
             (lit "The AI failed to generate a character. Please try again."))
       end)
      (fun e => setError (Some (error_message e
         (lit "An unknown error occurred while creating the character."))))
      (setIsCreatingCharacter false).

(** [const [sceneDescription, textContent] = line.split('|').map(s => s.trim())]:
    the first two fields; [textContent] is [undefined] when the line has
    no second field. [split] never returns an empty array, so the first
    field always exists. *)
Definition parse_line (line : jsstring) : jsstring * option jsstring :=
  let fields := map trim (split BAR line) in
  (hd [] fields, nth_error fields 1).

Definition caption_instruction (t : jsstring) : jsstring :=
  [LF; LF]
  ++ lit "IMPORTANT: Render the following text clearly inside the panel, using a stylish comic book font inside a speech bubble or caption box appropriate for the scene: "
  ++ [DQUOTE] ++ t ++ [DQUOTE].

(** The caption instruction is appended [if (textContent)]: when the
    second field is defined and not the empty string. *)
Definition fullPrompt (sceneDescription : jsstring) (textContent : option jsstring)
  : jsstring :=
  (lit "Create a dynamic anime panel in a modern style, ensuring the character's appearance is consistent with the provided reference image. The scene is: '"
   ++ sceneDescription
   ++ lit "'. Use interesting camera angles and cinematic composition.")
  ++ match textContent with
     | Some t => if truthy t then caption_instruction t else []
     | None => []
     end.

(** The request sent for one script line. *)
Definition panel_request (character : CharacterReference) (line : jsstring)
  : Request :=
  {| model := MODEL;
     parts := [InlineDataPart {| data := cr_base64 character;
                                 mimeType := cr_mimeType character |};
               TextPart (fullPrompt (fst (parse_line line)) (snd (parse_line line)))];
     responseModalities := [IMAGE] |}.

(** The placeholder appended before each call. *)
Definition placeholder (prev : list StoryboardPanel) : StoryboardPanel :=
  {| id := lit "loading-" ++ of_nat (List.length prev); src := [];
     prompt := lit "loading" |}.

(** The panel pushed onto [newPanels] once the response is in. *)
Definition finished_panel (i : jsstring) (line : jsstring) (response : Response)
  : StoryboardPanel :=
  match imagePart_inlineData response with
  | Some d => {| id := i; src := data_url d; prompt := line |}
  | None => {| id := i; src := lit "error"; prompt := line |}
  end.

(** [for (const line of scriptLines) { ... }], with the local array
    [newPanels] threaded through. *)
Fixpoint for_lines (env : Env) (character : CharacterReference)
  (scriptLines : list jsstring) (newPanels : list StoryboardPanel)
  : M State (list StoryboardPanel) :=
  match scriptLines with
  | [] => ret newPanels
  | line :: rest =>
      setStoryboardWith (fun prev => prev ++ [placeholder prev]) ;;
      response <- await_generateContent env (panel_request character line) ;;
      i <- fresh_id env ;;
      let newPanels' := newPanels ++ [finished_panel i line response] in
      setStoryboard newPanels' ;;
      for_lines env character rest newPanels'
  end.

(** [script.trim().split('\n').filter(line => line.trim() !== '')] *)
Definition scriptLines (script : jsstring) : list jsstring :=
  filter (fun line => negb (str_eqb (trim line) [])) (split LF (trim script)).

Definition handleGenerate (env : Env) : M State unit :=
  st <- get ;;
  match character st with
  | None =>
      setError (Some (lit "Please upload or create a character reference image."))
  | Some ch =>
      if negb (truthy (trim (script st))) then
        setError (Some (lit "Please enter a script for the storyboard."))
      else
        setIsLoading true ;;
        setError None ;;
        setStoryboard [] ;;
        try_catch_finally
          (newGoogleGenAI env ;;
           _ <- for_lines env ch (scriptLines (script st)) [] ;;
           ret tt)
          (fun e => setError (Some (error_message e
             (lit "An unknown error occurred during generation."))))
          (setIsLoading false)
  end.

(** What the grid renders inside a panel's tile: the spinner, the
    failure text, or the image. *)
Inductive Tile := Pending | Failed | Completed.

Definition tile (panel : StoryboardPanel) : Tile :=
  if str_eqb (prompt panel) (lit "loading") then Pending
  else if str_eqb (src panel) (lit "error") then Failed
  else Completed.

End StoryboardGenerator.

(** ** App.tsx

    [<main>] has two child slots, [activeTool === 'imageStudio' &&
    <ImageStudio />] and [activeTool === 'storyboard' &&
    <StoryboardGenerator />]. A component instance, with its [useState]
    cells, exists exactly while its slot holds the element: when the slot
    turns to [false] the instance is unmounted and its state discarded,
    and when the element appears again a new instance starts from the
    initial values. *)

Module App.

Inductive Tool := imageStudio | storyboard.

Definition tool_eqb (a b : Tool) : bool :=
  match a, b with
  | imageStudio, imageStudio | storyboard, storyboard => true
  | _, _ => false
  end.

Record State := {
  activeTool : Tool;
  imageStudio_instance : option ImageStudio.State;
  storyboard_instance : option StoryboardGenerator.State
}.

(** One slot of the rendered tree: [present && <Component />]. *)
Definition slot {St} (present : bool) (initial : St) (mounted : option St)
  : option St :=
  if present then
    match mounted with
    | Some st => Some st
    | None => Some initial
    end
  else None.

Definition render (tool : Tool) (prev : State) : State :=
  {| activeTool := tool;
     imageStudio_instance :=
       slot (tool_eqb tool imageStudio) ImageStudio.initial
            (imageStudio_instance prev);
     storyboard_instance :=
       slot (tool_eqb tool storyboard) StoryboardGenerator.initial
            (storyboard_instance prev) |}.

(** [useState<Tool>('imageStudio')] and the first render. *)
Definition initial : State :=
  render imageStudio
    {| activeTool := imageStudio; imageStudio_instance := None;
       storyboard_instance := None |}.

(** The [onClick] of a navigation item. *)
Definition setActiveTool (tool : Tool) (app : State) : State :=
  render tool app.

End App.

(** ** Vocabulary of the specification *)

(** Blank: empty or made of white space only. *)
Definition blank (s : jsstring) : bool := forallb is_ws s.

(** The non-blank lines of a script: split on newlines, drop the lines
    that are blank. *)
Definition nonblank_lines (script : jsstring) : list jsstring :=
  filter (fun line => negb (blank line)) (split LF script).

(** How many of the given lines are not blank. *)
Definition count_nonblank (ls : list jsstring) : nat :=
  List.length (filter (fun line => negb (blank line)) ls).

(** Splitting a line on the first bar only: the scene is the trimmed
    text before it, the caption the trimmed text after it. *)
Definition split_on_first_bar (line : jsstring) : jsstring * option jsstring :=
  (trim (before_first BAR line), option_map trim (after_first BAR line)).

(** The events of the loop iterations for [lines], the first of them
    being iteration [k0], read off the panel list [final] the run ends
    with: iteration [k] publishes the first [k] panels followed by a
    placeholder, issues the call for its line, then publishes the first
    [k + 1] panels. *)
Definition iteration_events (ch : CharacterReference) (k0 : nat)
  (lines : list jsstring) (final : list StoryboardPanel) : list Event :=
  flat_map
    (fun kl =>
       [EvStoryboard (firstn (fst kl) final
                      ++ [StoryboardGenerator.placeholder (firstn (fst kl) final)]);
        EvCall (StoryboardGenerator.panel_request ch (snd kl));
        EvStoryboard (firstn (S (fst kl)) final)])
    (combine (seq k0 (List.length lines)) lines).

(** The world in which the call for [line] is pending: the placeholder
    is published and the request is out. *)
Definition calling (ch : CharacterReference) (line : jsstring)
  (w : World StoryboardGenerator.State) : World StoryboardGenerator.State :=
  let prev := StoryboardGenerator.storyboard (state w) in
  {| state := StoryboardGenerator.with_storyboard
                (prev ++ [StoryboardGenerator.placeholder prev]) (state w);
     trace := trace w ++ [EvStoryboard (prev ++ [StoryboardGenerator.placeholder prev]);
                          EvCall (StoryboardGenerator.panel_request ch line)];
     ncalls := S (ncalls w);
     nids := nids w |}.

(** The world once an identifier has been drawn and the panels [np]
    republished. *)
Definition recorded (np : list StoryboardPanel)
  (w : World StoryboardGenerator.State) : World StoryboardGenerator.State :=
  {| state := StoryboardGenerator.with_storyboard np (state w);
     trace := trace w ++ [EvStoryboard np];
     ncalls := ncalls w;
     nids := S (nids w) |}.

(** The world a storyboard run is in when it enters its [try] block:
    busy, error cleared, panel list emptied. *)
Definition run_start (st : StoryboardGenerator.State)
  : World StoryboardGenerator.State :=
  {| state := StoryboardGenerator.with_storyboard []
                (StoryboardGenerator.with_error None
                   (StoryboardGenerator.with_isLoading true st));
     trace := [EvStoryboard []];
     ncalls := 0;
     nids := 0 |}.

(** What the [catch] and [finally] blocks of a storyboard run do. *)
Definition run_caught (e : Thrown) (w : World StoryboardGenerator.State)
  : World StoryboardGenerator.State :=
  on_state (StoryboardGenerator.with_isLoading false)
    (on_state (StoryboardGenerator.with_error
                 (Some (error_message e
                    (lit "An unknown error occurred during generation."))))
       w).

Definition run_finished (w : World StoryboardGenerator.State)
  : World StoryboardGenerator.State :=
  on_state (StoryboardGenerator.with_isLoading false) w.

(** ** The specification's sentences, as stated *)

(** A call fails: it throws, or its response carries no image. *)
Definition call_fails (res : CallResult) : Prop :=
  match res with
  | Rejected _ => True
  | Returned r => imagePart_inlineData r = None
  end.

(** Any failure of line [k]'s call leaves a failed panel labelled with
    the line at position [k] and does not keep line [k + 1] from being
    attempted. *)
Definition stated_failure_tolerance (env : Env)
  (st : StoryboardGenerator.State) (k : nat) : Prop :=
  forall ch line,
    StoryboardGenerator.character st = Some ch ->
    nth_error (StoryboardGenerator.scriptLines (StoryboardGenerator.script st)) k
    = Some line ->
    call_fails (generateContent env k (StoryboardGenerator.panel_request ch line)) ->
    let w := fst (StoryboardGenerator.handleGenerate env (init_world st)) in
    (exists i,
       nth_error (StoryboardGenerator.storyboard (state w)) k
       = Some {| id := i; src := lit "error"; prompt := line |})
    /\ (forall next,
          nth_error (StoryboardGenerator.scriptLines (StoryboardGenerator.script st))
                    (S k) = Some next ->
          nth_error (calls_of (trace w)) (S k)
          = Some (StoryboardGenerator.panel_request ch next)).

(** A line is split on its first bar only. *)
Definition stated_first_bar_split (line : jsstring) : Prop :=
  StoryboardGenerator.parse_line line = split_on_first_bar line.

(** A script of blank lines runs to a successful end with no panel. *)
Definition stated_blank_script_succeeds (env : Env)
  (st : StoryboardGenerator.State) : Prop :=
  StoryboardGenerator.character st <> None ->
  forallb blank (split LF (StoryboardGenerator.script st)) = true ->
  let w := fst (StoryboardGenerator.handleGenerate env (init_world st)) in
  calls_of (trace w) = []
  /\ StoryboardGenerator.storyboard (state w) = []
  /\ StoryboardGenerator.error (state w) = None.

(** Clearing the input image resets output and error and keeps the
    prompt. *)
Definition stated_clear_resets (st : ImageStudio.State) : Prop :=
  let st' := state (fst (ImageStudio.handleClearImage (init_world st))) in
  ImageStudio.outputImage st' = None
  /\ ImageStudio.error st' = None
  /\ ImageStudio.prompt st' = ImageStudio.prompt st.

(** Going to the other workflow and coming back. *)
Definition other_tool (tool : App.Tool) : App.Tool :=
  match tool with
  | App.imageStudio => App.storyboard
  | App.storyboard => App.imageStudio
  end.

Definition there_and_back (app : App.State) : App.State :=
  App.setActiveTool (App.activeTool app)
    (App.setActiveTool (other_tool (App.activeTool app)) app).

Definition stated_switch_preserves (app : App.State) : Prop :=
  there_and_back app = app.

(** ** Sample inputs *)

Definition sample_character : CharacterReference :=
  {| cr_base64 := lit "iVBORw0KGgo="; cr_mimeType := lit "image/png";
     cr_file := None |}.

Definition sample_image : InlineData :=
  {| data := lit "UE5H"; mimeType := lit "image/png" |}.

(** A response whose first candidate carries a text part, then an
    image part. *)
Definition image_response : Response :=
  {| candidates :=
       Some [{| content :=
                  Some {| content_parts :=
                            Some [{| rp_inlineData := None |};
                                  {| rp_inlineData := Some sample_image |}] |} |}] |}.

(** A response with a text part only. *)
Definition text_response : Response :=
  {| candidates :=
       Some [{| content :=
                  Some {| content_parts := Some [{| rp_inlineData := None |}] |} |}] |}.

Definition sample_ids (n : nat) : jsstring :=
  lit "2025-06-01T12:00:00.000Z-0." ++ of_nat n.

(** A service that answers every call with an image, except call [k],
    which ends as [res]. *)
Definition env_except (k : nat) (res : CallResult) : Env :=
  {| new_GoogleGenAI := None;
     generateContent := fun n _ => if Nat.eqb n k then res else Returned image_response;
     date_random := sample_ids |}.

(** A service that answers every call with an image. *)
Definition env_images : Env :=
  {| new_GoogleGenAI := None;
     generateContent := fun _ _ => Returned image_response;
     date_random := sample_ids |}.

(** The storyboard workflow with the sample character and a script. *)
Definition ready (script : jsstring) : StoryboardGenerator.State :=
  StoryboardGenerator.with_script script
    (StoryboardGenerator.with_character (Some sample_character)
       StoryboardGenerator.initial).

Definition two_lines : jsstring := lit "A" ++ [LF] ++ lit "B".

Definition failed_to_fetch : Thrown := ThrownError (lit "Failed to fetch").

Definition three_fields : jsstring := lit "A | B | C".

(** A script of two lines of spaces. *)
Definition blank_script : jsstring := lit "  " ++ [LF] ++ lit " ".

Definition sample_upload : UploadedImage :=
  {| ui_file := {| file_type := lit "image/jpeg"; file_handle := 1 |};
     ui_base64 := lit "/9j/4AAQ" |}.

(** The single-image workflow after an upload, a prompt and a
    successful generation. *)
Definition studio_with_output : ImageStudio.State :=
  {| ImageStudio.prompt := lit "make it night";
     ImageStudio.inputImage := Some sample_upload;
     ImageStudio.outputImage := Some (data_url sample_image);
     ImageStudio.isLoading := false;
     ImageStudio.error := None |}.

(** The application showing the single-image workflow with a prompt
    typed in. *)
Definition app_with_prompt : App.State :=
  {| App.activeTool := App.imageStudio;
     App.imageStudio_instance :=
       Some (ImageStudio.with_prompt (lit "a cat") ImageStudio.initial);
     App.storyboard_instance := None |}.

(** The storyboard workflow with a description typed in and panels
    from an earlier run. *)
Definition describing : StoryboardGenerator.State :=
  StoryboardGenerator.with_storyboard
    [{| id := sample_ids 7; src := data_url sample_image; prompt := lit "A" |}]
    (StoryboardGenerator.with_characterDescription (lit "a ninja")
       StoryboardGenerator.initial).

(** ** File selection ([ImageUploader], [CharacterUploader])

    Both uploaders carry the same [fileToBase64] and [handleFileChange]. *)

Definition COMMA : N := 44.

(** [s.startsWith(prefix)] *)
Fixpoint startsWith (prefix s : jsstring) : bool :=
  match prefix, s with
  | [], _ => true
  | p :: ps, c :: cs => N.eqb p c && startsWith ps cs
  | _ :: _, [] => false
  end.

(** What [reader.readAsDataURL(file)] ends in: [onload] with
    [reader.result], or [onerror]. *)
Inductive ReadResult :=
| Loaded (result : jsstring)
| ReadError.

(** [fileToBase64]: the promise resolves with [result.split(',')[1]],
    which is [undefined] when the result has no comma, and rejects on a
    read error. *)
Definition fileToBase64 (reader : File -> ReadResult) (file : File)
  : option (option jsstring) :=
  match reader file with
  | Loaded result => Some (nth_error (split COMMA result) 1)
  | ReadError => None
  end.

(** What [handleFileChange] does with a selection or a drop: nothing,
    the alert, a rejected promise (nothing is uploaded), or the call of
    [onImageUpload] with the file and the base64 value. *)
Inductive FileOutcome :=
| NoFile
| NotAnImage
| ReadFailed
| Selected (file : File) (base64 : option jsstring).

(** [if (files && files[0]) { if (file.type.startsWith('image/')) ... }] *)
Definition handleFileChange (reader : File -> ReadResult)
  (files : option (list File)) : FileOutcome :=
  match files with
  | Some (file :: _) =>
      if startsWith (lit "image/") (file_type file) then
        match fileToBase64 reader file with
        | Some base64 => Selected file base64
        | None => ReadFailed
        end
      else NotAnImage
  | _ => NoFile
  end.

(** ** What the components render *)

(** The [src] of the input preview in the single-image workflow,
    [`data:${inputImage.file.type};base64,${inputImage.base64}`]. *)
Definition input_preview (img : UploadedImage) : jsstring :=
  lit "data:" ++ file_type (ui_file img) ++ lit ";base64," ++ ui_base64 img.

(** The display area of the single-image workflow:
    [isLoading ? spinner : outputImage ? <img> : empty state]. *)
Inductive StudioDisplay :=
| StudioSpinner
| StudioImage (src : jsstring)
| StudioEmpty.

Definition studio_display (st : ImageStudio.State) : StudioDisplay :=
  if ImageStudio.isLoading st then StudioSpinner
  else match ImageStudio.outputImage st with
       | Some url => if truthy url then StudioImage url else StudioEmpty
       | None => StudioEmpty
       end.

(** The error paragraph, [error && <p>{error}</p>]: rendered when
    [error] is neither [null] nor the empty string. *)
Definition banner (error : option jsstring) : option jsstring :=
  match error with
  | Some m => if truthy m then Some m else None
  | None => None
  end.

(** [disabled={!prompt || isLoading}] *)
Definition studio_generate_disabled (st : ImageStudio.State) : bool :=
  negb (truthy (ImageStudio.prompt st)) || ImageStudio.isLoading st.

(** [disabled={!character || !script || isLoading}] *)
Definition storyboard_generate_disabled (st : StoryboardGenerator.State) : bool :=
  negb (is_some (StoryboardGenerator.character st))
  || negb (truthy (StoryboardGenerator.script st))
  || StoryboardGenerator.isLoading st.

(** [disabled={!characterDescription || isCreatingCharacter}] *)
Definition character_generate_disabled (st : StoryboardGenerator.State) : bool :=
  negb (truthy (StoryboardGenerator.characterDescription st))
  || StoryboardGenerator.isCreatingCharacter st.

(** The request of the single-image workflow. *)
Definition studio_request (st : ImageStudio.State) : Request :=
  {| model := MODEL;
     parts := ImageStudio.request_parts (ImageStudio.inputImage st)
                (ImageStudio.prompt st);
     responseModalities := [IMAGE] |}.

(** The request of the character generation. *)
Definition character_request (st : StoryboardGenerator.State) : Request :=
  {| model := MODEL;
     parts := [TextPart (StoryboardGenerator.character_prompt
                           (StoryboardGenerator.characterDescription st))];
     responseModalities := [IMAGE] |}.

(** In the shell, a workflow is mounted exactly when it is the active
    one. *)
Definition well_mounted (app : App.State) : bool :=
  match App.activeTool app with
  | App.imageStudio =>
      is_some (App.imageStudio_instance app)
      && negb (is_some (App.storyboard_instance app))
  | App.storyboard =>
      negb (is_some (App.imageStudio_instance app))
      && is_some (App.storyboard_instance app)
  end.

(** The published lengths of a run of [N] lines that goes through. *)
Definition full_lengths (N : nat) : list nat :=
  0 :: flat_map (fun k => [S k; S k]) (seq 0 N).

(** Sample files. *)
Definition png_file : File := {| file_type := lit "image/png"; file_handle := 2 |}.
Definition pdf_file : File := {| file_type := lit "application/pdf"; file_handle := 3 |}.

(** A reader that loads every file as a data URL of its type with the
    payload "UE5H". *)
Definition sample_reader (file : File) : ReadResult :=
  Loaded (lit "data:" ++ file_type file ++ lit ";base64," ++ lit "UE5H").

(** * Properties *)

(** ** Strings *)

Section Strings.

Lemma str_eqb_eq (a b : jsstring) : str_eqb a b = true <-> a = b.
Proof.
  revert b; induction a as [|x a IH]; intros [|y b]; simpl;
    try (split; [discriminate | congruence]); try tauto.
  rewrite andb_true_iff, N.eqb_eq, IH. split.
  - intros [-> ->]; reflexivity.
  - intros E; injection E; auto.
Qed.

Lemma trimStart_blank (s : jsstring) : trimStart s = [] <-> blank s = true.
Proof.
  induction s as [|c r IH]; simpl; [tauto|].
  destruct (is_ws c); simpl; [exact IH|].
  split; discriminate.
Qed.

(** What [trimStart] leaves is blank only when it is empty. *)
Lemma trimStart_blank_nil (s : jsstring) :
  blank (trimStart s) = true -> trimStart s = [].
Proof.
  induction s as [|c r IH]; simpl; [reflexivity|].
  destruct (is_ws c) eqn:E; [exact IH|].
  simpl; rewrite E; discriminate.
Qed.

Lemma blank_rev (s : jsstring) : blank (rev s) = blank s.
Proof.
  unfold blank. induction s as [|c r IH]; simpl; [reflexivity|].
  rewrite forallb_app, IH; simpl. rewrite andb_true_r, andb_comm; reflexivity.
Qed.

Lemma rev_nil_iff {A} (l : list A) : rev l = [] <-> l = [].
Proof.
  split; [|intros ->; reflexivity].
  intros H. apply (f_equal (@rev A)) in H. rewrite rev_involutive in H. exact H.
Qed.

(** [s.trim()] is the empty string exactly when [s] is blank. *)
(** [s.trim()] is the empty string exactly when [s] is blank. *)
Lemma trim_blank (s : jsstring) : trim s = [] <-> blank s = true.
Proof.
  unfold trim, trimEnd. rewrite rev_nil_iff, trimStart_blank, blank_rev.
  split.
  - intros H. apply trimStart_blank, trimStart_blank_nil, H.
  - intros H. apply trimStart_blank in H. rewrite H; reflexivity.
Qed.

Lemma trim_test_blank (s : jsstring) : str_eqb (trim s) [] = blank s.
Proof.
  destruct (blank s) eqn:E.
  - apply trim_blank in E. rewrite E; reflexivity.
  - destruct (str_eqb (trim s) []) eqn:F; [|reflexivity].
    apply str_eqb_eq, trim_blank in F. congruence.
Qed.

Lemma truthy_trim (s : jsstring) : truthy (trim s) = negb (blank s).
Proof.
  rewrite <- trim_test_blank. destruct (trim s); reflexivity.
Qed.

Lemma trimEnd_snoc (s : jsstring) (c : N) :
  trimEnd (s ++ [c]) = if is_ws c then trimEnd s else s ++ [c].
Proof.
  unfold trimEnd. rewrite rev_app_distr; simpl.
  destruct (is_ws c); [reflexivity|].
  simpl. rewrite rev_involutive; reflexivity.
Qed.

Lemma is_ws_LF : is_ws LF = true.
Proof. reflexivity. Qed.

(** The first field is what precedes the first separator; the other
    fields are the fields of what follows it. *)
Lemma split_fields_first (sep : N) (s : jsstring) :
  split_fields sep s =
  (before_first sep s,
   match after_first sep s with
   | Some r => split sep r
   | None => []
   end).
Proof.
  induction s as [|c r IH]; [reflexivity|].
  cbn [split_fields before_first after_first]. rewrite IH.
  destruct (N.eqb c sep); [|reflexivity].
  unfold split. rewrite IH. reflexivity.
Qed.

(** A script is blank exactly when all of its lines are. *)
Lemma blank_lines (s : jsstring) :
  blank s = forallb blank (split LF s).
Proof.
  unfold split.
  induction s as [|c r IH]; [reflexivity|].
  cbn [split_fields]. destruct (split_fields LF r) as [h t].
  change (blank (c :: r)) with (is_ws c && blank r).
  rewrite IH.
  destruct (N.eqb c LF) eqn:E.
  - apply N.eqb_eq in E; subst c. reflexivity.
  - change (forallb blank ((c :: h) :: t))
      with ((is_ws c && blank h) && forallb blank t).
    change (forallb blank (h :: t)) with (blank h && forallb blank t).
    rewrite andb_assoc. reflexivity.
Qed.

Lemma count_nonblank_cons (l : jsstring) (ls : list jsstring) :
  count_nonblank (l :: ls) = (if blank l then 0 else 1) + count_nonblank ls.
Proof. unfold count_nonblank; simpl. destruct (blank l); reflexivity. Qed.

Lemma blank_cons (c : N) (s : jsstring) : blank (c :: s) = is_ws c && blank s.
Proof. reflexivity. Qed.

(** Dropping one leading white-space code unit does not change the
    number of non-blank lines. *)
Lemma count_nonblank_cons_ws (c : N) (s : jsstring) :
  is_ws c = true ->
  count_nonblank (split LF (c :: s)) = count_nonblank (split LF s).
Proof.
  intros W. unfold split. cbn [split_fields].
  destruct (split_fields LF s) as [h t].
  destruct (N.eqb c LF); rewrite !count_nonblank_cons.
  - reflexivity.
  - rewrite blank_cons, W. reflexivity.
Qed.

Lemma count_nonblank_trimStart (s : jsstring) :
  count_nonblank (split LF (trimStart s)) = count_nonblank (split LF s).
Proof.
  induction s as [|c r IH]; [reflexivity|].
  cbn [trimStart]. destruct (is_ws c) eqn:W; [|reflexivity].
  rewrite IH. symmetry. apply count_nonblank_cons_ws, W.
Qed.

(** The same at the end of the script. *)
Lemma split_fields_snoc_ws (c : N) (s : jsstring) :
  is_ws c = true ->
  blank (fst (split_fields LF (s ++ [c]))) = blank (fst (split_fields LF s)) /\
  count_nonblank (snd (split_fields LF (s ++ [c])))
  = count_nonblank (snd (split_fields LF s)).
Proof.
  intros W. induction s as [|d r [IH1 IH2]].
  - cbn [app split_fields]. destruct (N.eqb c LF); cbn [fst snd].
    + split; reflexivity.
    + rewrite blank_cons, W. split; reflexivity.
  - cbn [app split_fields].
    destruct (split_fields LF (r ++ [c])) as [h' t'].
    destruct (split_fields LF r) as [h t].
    cbn [fst snd] in *.
    destruct (N.eqb d LF); cbn [fst snd].
    + split; [reflexivity|].
      rewrite !count_nonblank_cons, IH1, IH2. reflexivity.
    + split; [|exact IH2].
      rewrite !blank_cons, IH1. reflexivity.
Qed.

Lemma count_nonblank_snoc_ws (c : N) (s : jsstring) :
  is_ws c = true ->
  count_nonblank (split LF (s ++ [c])) = count_nonblank (split LF s).
Proof.
  intros W. destruct (@split_fields_snoc_ws c s W) as [H1 H2].
  unfold split.
  destruct (split_fields LF (s ++ [c])) as [h' t'].
  destruct (split_fields LF s) as [h t].
  cbn [fst snd] in *.
  rewrite !count_nonblank_cons, H1, H2. reflexivity.
Qed.

Lemma count_nonblank_trimEnd (s : jsstring) :
  count_nonblank (split LF (trimEnd s)) = count_nonblank (split LF s).
Proof.
  induction s as [|c r IH] using rev_ind; [reflexivity|].
  rewrite trimEnd_snoc. destruct (is_ws c) eqn:W; [|reflexivity].
  rewrite IH. symmetry. apply count_nonblank_snoc_ws, W.
Qed.

End Strings.

(** ** The storyboard loop *)

Section Loop.

Import StoryboardGenerator.

Variable env : Env.
Variable ch : CharacterReference.

(** One iteration. *)
Lemma for_lines_cons (line : jsstring) (rest : list jsstring)
  (np : list StoryboardPanel) (w : World State) :
  for_lines env ch (line :: rest) np w =
  match generateContent env (ncalls w) (panel_request ch line) with
  | Rejected e => (calling ch line w, Throw e)
  | Returned r =>
      let np' := np ++ [finished_panel (date_random env (nids w)) line r] in
      for_lines env ch rest np' (recorded np' (calling ch line w))
  end.
Proof.
  cbn [for_lines]. unfold bind at 1.
  unfold setStoryboardWith, bind, get, modify, emit, on_state, calling, recorded; cbn.
  unfold await_generateContent; cbn.
  rewrite <- app_assoc; cbn [app].
  destruct (generateContent env (ncalls w) (panel_request ch line)); reflexivity.
Qed.

(** The loop over [l1 ++ l2] is the loop over [l1] followed, unless it
    threw, by the loop over [l2]. *)
Lemma for_lines_app (l1 l2 : list jsstring) :
  forall np w,
    for_lines env ch (l1 ++ l2) np w =
    match for_lines env ch l1 np w with
    | (w', Normal np') => for_lines env ch l2 np' w'
    | (w', Throw e) => (w', Throw e)
    end.
Proof.
  induction l1 as [|line l1 IH]; intros np w; [reflexivity|].
  cbn [app]. rewrite !for_lines_cons.
  destruct (generateContent env (ncalls w) (panel_request ch line));
    [apply IH | reflexivity].
Qed.

Lemma iteration_events_cons (k0 : nat) (line : jsstring)
  (rest : list jsstring) (final : list StoryboardPanel) :
  iteration_events ch k0 (line :: rest) final =
  [EvStoryboard (firstn k0 final ++ [placeholder (firstn k0 final)]);
   EvCall (panel_request ch line);
   EvStoryboard (firstn (S k0) final)]
  ++ iteration_events ch (S k0) rest final.
Proof. reflexivity. Qed.

(** When every call of the remaining lines returns, the loop completes,
    and its effects are those of [iteration_events]. *)
Lemma for_lines_returns (lines : list jsstring) :
  forall np w,
    storyboard (state w) = np ->
    (forall i line, nth_error lines i = Some line ->
       exists r, generateContent env (ncalls w + i) (panel_request ch line)
                 = Returned r) ->
    exists final,
      for_lines env ch lines np w =
        ({| state := with_storyboard final (state w);
            trace := trace w ++ iteration_events ch (List.length np) lines final;
            ncalls := ncalls w + List.length lines;
            nids := nids w + List.length lines |}, Normal final)
      /\ List.length final = List.length np + List.length lines
      /\ firstn (List.length np) final = np
      /\ (forall i line r,
            nth_error lines i = Some line ->
            generateContent env (ncalls w + i) (panel_request ch line) = Returned r ->
            nth_error final (List.length np + i)
            = Some (finished_panel (date_random env (nids w + i)) line r)).
Proof.
  induction lines as [|line rest IH]; intros np w Hsb Hret.
  - exists np. cbn [for_lines ret List.length iteration_events seq combine flat_map].
    rewrite !Nat.add_0_r, app_nil_r, firstn_all.
    repeat split; try reflexivity.
    + destruct w as [st tr nc ni]; destruct st; cbn in *; subst; reflexivity.
    + intros i line r H; destruct i; discriminate.
  - destruct (Hret 0 line eq_refl) as [r Hr]. rewrite Nat.add_0_r in Hr.
    rewrite for_lines_cons, Hr. cbv zeta.
    set (p := finished_panel (date_random env (nids w)) line r).
    destruct (IH (np ++ [p]) (recorded (np ++ [p]) (calling ch line w)))
      as (final & Hrun & Hlen & Hpre & Hnth).
    + reflexivity.
    + intros i l Hl. cbn [recorded calling ncalls].
      replace (S (ncalls w) + i) with (ncalls w + S i) by lia.
      apply Hret. exact Hl.
    + rewrite length_app in Hlen, Hpre. cbn [List.length] in Hlen, Hpre.
      assert (Hfin : final = (np ++ [p]) ++ skipn (List.length np + 1) final).
      { rewrite <- Hpre at 1. rewrite firstn_skipn. reflexivity. }
      assert (Hk : firstn (List.length np) final = np).
      { rewrite Hfin, <- app_assoc, firstn_app, Nat.sub_diag, firstn_all.
        cbn [firstn]. rewrite app_nil_r. reflexivity. }
      assert (HSk : firstn (S (List.length np)) final = np ++ [p]).
      { replace (S (List.length np)) with (List.length np + 1) by lia.
        exact Hpre. }
      exists final. rewrite Hrun. repeat split.
      * f_equal. rewrite iteration_events_cons, Hk, HSk.
        unfold recorded, calling; cbn [state trace ncalls nids].
        rewrite Hsb, length_app; cbn [List.length].
        replace (List.length np + 1) with (S (List.length np)) by lia.
        f_equal.
        -- rewrite <- !app_assoc. reflexivity.
        -- lia.
        -- lia.
      * cbn [List.length]. lia.
      * exact Hk.
      * intros i l r' Hl Hr'. destruct i as [|i].
        -- cbn in Hl. injection Hl as <-. rewrite !Nat.add_0_r in *.
           rewrite Hr in Hr'. injection Hr' as <-.
           rewrite Hfin, <- app_assoc, nth_error_app2 by lia.
           rewrite Nat.sub_diag. reflexivity.
        -- cbn in Hl.
           specialize (Hnth i l r' Hl).
           cbn [recorded calling ncalls nids] in Hnth.
           rewrite length_app in Hnth. cbn [List.length] in Hnth.
           replace (List.length np + 1 + i) with (List.length np + S i) in Hnth by lia.
           replace (S (nids w) + i) with (nids w + S i) in Hnth by lia.
           apply Hnth.
           replace (S (ncalls w) + i) with (ncalls w + S i) by lia. exact Hr'.
Qed.

(** Whatever the service does, the loop only ever extends the panels
    finalized so far, and only adds to the trace. *)
Lemma for_lines_extends (lines : list jsstring) :
  forall np w,
    storyboard (state w) = np ->
    exists more tr,
      state (fst (for_lines env ch lines np w))
      = with_storyboard (np ++ more) (state w)
      /\ trace (fst (for_lines env ch lines np w)) = trace w ++ tr.
Proof.
  induction lines as [|line rest IH]; intros np w Hsb.
  - exists [], []. cbn [for_lines ret fst]. rewrite !app_nil_r. split; [|reflexivity].
    destruct w as [st tr nc ni]; destruct st; cbn in *; subst; reflexivity.
  - rewrite for_lines_cons.
    destruct (generateContent env (ncalls w) (panel_request ch line)) as [r|e].
    + cbv zeta.
      set (p := finished_panel (date_random env (nids w)) line r).
      destruct (IH (np ++ [p]) (recorded (np ++ [p]) (calling ch line w)) eq_refl)
        as (more & tr & Hst & Htr).
      exists (p :: more), ([EvStoryboard (np ++ [placeholder np]);
                            EvCall (panel_request ch line);
                            EvStoryboard (np ++ [p])] ++ tr).
      rewrite Hst, Htr. unfold recorded, calling; cbn [state trace].
      rewrite Hsb, <- !app_assoc. split; reflexivity.
    + exists [placeholder np], [EvStoryboard (np ++ [placeholder np]);
                                EvCall (panel_request ch line)].
      unfold calling; cbn [fst state trace]. rewrite Hsb. split; reflexivity.
Qed.

(** A loop with a line left publishes a placeholder and issues that
    line's call, whatever happens next. *)
Lemma for_lines_attempts (next : jsstring) (rest : list jsstring)
  (np : list StoryboardPanel) (w : World State) :
  storyboard (state w) = np ->
  exists more tr,
    state (fst (for_lines env ch (next :: rest) np w))
    = with_storyboard (np ++ more) (state w)
    /\ trace (fst (for_lines env ch (next :: rest) np w))
       = trace w ++ [EvStoryboard (np ++ [placeholder np]);
                     EvCall (panel_request ch next)] ++ tr.
Proof.
  intros Hsb. rewrite for_lines_cons.
  destruct (generateContent env (ncalls w) (panel_request ch next)) as [r|e].
  - cbv zeta.
    set (p := finished_panel (date_random env (nids w)) next r).
    destruct (@for_lines_extends rest (np ++ [p])
                (recorded (np ++ [p]) (calling ch next w)) eq_refl)
      as (more & tr & Hst & Htr).
    exists (p :: more), (EvStoryboard (np ++ [p]) :: tr).
    rewrite Hst, Htr. unfold recorded, calling; cbn [state trace].
    rewrite Hsb, <- !app_assoc. split; reflexivity.
  - exists [placeholder np], [].
    unfold calling; cbn [fst state trace]. rewrite Hsb. split; reflexivity.
Qed.

(** The events of a completed loop, seen as requests and as published
    lists. *)
Lemma calls_of_app (t1 t2 : list Event) :
  calls_of (t1 ++ t2) = calls_of t1 ++ calls_of t2.
Proof. apply flat_map_app. Qed.

Lemma published_of_app (t1 t2 : list Event) :
  published_of (t1 ++ t2) = published_of t1 ++ published_of t2.
Proof. apply flat_map_app. Qed.

Lemma calls_of_iteration_events (lines : list jsstring)
  (final : list StoryboardPanel) :
  forall k0,
    calls_of (iteration_events ch k0 lines final) = map (panel_request ch) lines.
Proof.
  induction lines as [|line rest IH]; intros k0; [reflexivity|].
  rewrite iteration_events_cons, calls_of_app, IH. reflexivity.
Qed.

Lemma published_lengths_iteration_events (lines : list jsstring)
  (final : list StoryboardPanel) :
  forall k0,
    k0 + List.length lines <= List.length final ->
    map (@List.length _) (published_of (iteration_events ch k0 lines final))
    = flat_map (fun k => [S k; S k]) (seq k0 (List.length lines)).
Proof.
  induction lines as [|line rest IH]; intros k0 Hle; [reflexivity|].
  cbn [List.length] in Hle.
  rewrite iteration_events_cons, published_of_app, map_app, IH
    by (cbn [List.length]; lia).
  cbn [published_of flat_map app map List.length seq].
  rewrite length_app, !firstn_length_le by lia.
  cbn [List.length]. repeat f_equal. lia.
Qed.

(** A storyboard run that passes the two guards. *)
Lemma handleGenerate_run (st : State) :
  character st = Some ch ->
  blank (script st) = false ->
  handleGenerate env (init_world st) =
  match new_GoogleGenAI env with
  | Some e => (run_caught e (run_start st), Normal tt)
  | None =>
      match for_lines env ch (scriptLines (script st)) [] (run_start st) with
      | (w, Normal _) => (run_finished w, Normal tt)
      | (w, Throw e) => (run_caught e w, Normal tt)
      end
  end.
Proof.
  intros Hch Hb.
  unfold handleGenerate, bind at 1, get. cbn [init_world state].
  rewrite Hch, truthy_trim, Hb. cbn [negb].
  unfold bind, setIsLoading, setError, setStoryboard, setStoryboardWith,
    try_catch_finally, newGoogleGenAI, modify, emit, get, ret, throw,
    run_caught, run_finished, run_start, on_state; cbn.
  destruct (new_GoogleGenAI env) as [e|]; [reflexivity|].
  match goal with |- context [for_lines ?a ?b ?c ?d ?x] =>
    destruct (for_lines a b c d x) as [w [np|e]] end; reflexivity.
Qed.

End Loop.

(** ** The work plan of a run *)

Section WorkPlan.

Import StoryboardGenerator.

(** Trimming the script first, as the code does, keeps the number of
    non-blank lines. *)
Lemma scriptLines_length (script : jsstring) :
  List.length (scriptLines script) = List.length (nonblank_lines script).
Proof.
  unfold scriptLines, nonblank_lines.
  rewrite (filter_ext _ (fun line => negb (blank line)))
    by (intros l; rewrite trim_test_blank; reflexivity).
  fold (count_nonblank (split LF (trim script))).
  fold (count_nonblank (split LF script)).
  unfold trim. rewrite count_nonblank_trimEnd, count_nonblank_trimStart.
  reflexivity.
Qed.

Lemma count_nonblank_zero (ls : list jsstring) :
  count_nonblank ls = 0 <-> forallb blank ls = true.
Proof.
  induction ls as [|l ls IH]; [cbn; tauto|].
  rewrite count_nonblank_cons. cbn [forallb].
  destruct (blank l); cbn [andb plus]; [exact IH|].
  split; discriminate.
Qed.

(** A script has no non-blank line exactly when it is blank. *)
Lemma nonblank_lines_none (script : jsstring) :
  List.length (nonblank_lines script) = 0 <-> blank script = true.
Proof.
  rewrite blank_lines. apply count_nonblank_zero.
Qed.

(** A blank script has no work plan. *)
Lemma blank_scriptLines (script : jsstring) :
  blank script = true -> scriptLines script = [].
Proof.
  intros H. unfold scriptLines. apply trim_blank in H. rewrite H. reflexivity.
Qed.

Lemma blank_scriptLines_inv (script : jsstring) :
  scriptLines script = [] -> blank script = true.
Proof.
  intros H. apply nonblank_lines_none.
  rewrite <- scriptLines_length, H. reflexivity.
Qed.

(** Every line of the work plan is non-blank. *)
Lemma scriptLines_nonblank (script line : jsstring) :
  In line (scriptLines script) -> blank line = false.
Proof.
  unfold scriptLines. intros H. apply filter_In in H. destruct H as [_ H].
  rewrite trim_test_blank in H. destruct (blank line); [discriminate|reflexivity].
Qed.

End WorkPlan.

(** ** Runs in which every call returns *)

Section CompletedRun.

Import StoryboardGenerator.

(** C1. A run started with a character reference and a script of
    [N >= 1] non-blank lines, in which neither the client construction
    nor any call throws, completes normally; its trace is, after the
    initial clearing of the panel list, one triple per line in script
    order: publish the panels finalized so far plus a placeholder, issue
    the call for the line, publish the panels with this line's result.
    Hence exactly [N] calls are issued, in script order, each after the
    previous line's result was published; the published lists have
    lengths 0, 1, 1, 2, 2, ..., N, N; and the run ends with [N] panels,
    not busy, and without error. *)
Theorem C1_run_is_sequential (env : Env) (st : State)
  (ch : CharacterReference) (N : nat) :
  character st = Some ch ->
  List.length (nonblank_lines (script st)) = N ->
  1 <= N ->
  new_GoogleGenAI env = None ->
  (forall k line,
     nth_error (scriptLines (script st)) k = Some line ->
     exists r, generateContent env k (panel_request ch line) = Returned r) ->
  let lines := scriptLines (script st) in
  let w := fst (handleGenerate env (init_world st)) in
  let final := storyboard (state w) in
  List.length lines = N
  /\ snd (handleGenerate env (init_world st)) = Normal tt
  /\ trace w = EvStoryboard [] :: iteration_events ch 0 lines final
  /\ calls_of (trace w) = map (panel_request ch) lines
  /\ map (@List.length _) (published_of (trace w))
     = 0 :: flat_map (fun k => [S k; S k]) (seq 0 N)
  /\ List.length final = N
  /\ isLoading (state w) = false
  /\ error (state w) = None.
Proof.
  intros Hch HN Hpos Hnew Hret lines w final.
  assert (Hlines : List.length lines = N)
    by (unfold lines; rewrite scriptLines_length; exact HN).
  assert (Hb : blank (script st) = false).
  { destruct (blank (script st)) eqn:E; [|reflexivity].
    apply nonblank_lines_none in E. lia. }
  destruct (@for_lines_returns env ch lines [] (run_start st) eq_refl)
    as (fin & Hrun & Hlen & _ & _).
  { intros i line Hl. cbn [run_start ncalls plus]. apply Hret, Hl. }
  pose proof (@handleGenerate_run env ch st Hch Hb) as Hgen.
  rewrite Hnew in Hgen. fold lines in Hgen. rewrite Hrun in Hgen.
  subst w final. rewrite Hgen.
  cbn [fst snd run_finished on_state run_start state trace storyboard
       with_isLoading with_storyboard with_error isLoading error
       List.length plus app].
  cbn [List.length plus] in Hlen. rewrite Hlines in Hlen.
  repeat split; try assumption.
  - change (EvStoryboard [] :: iteration_events ch 0 lines fin)
      with ([EvStoryboard []] ++ iteration_events ch 0 lines fin).
    rewrite calls_of_app, calls_of_iteration_events. reflexivity.
  - change (EvStoryboard [] :: iteration_events ch 0 lines fin)
      with ([EvStoryboard []] ++ iteration_events ch 0 lines fin).
    rewrite published_of_app, map_app, published_lengths_iteration_events
      by (rewrite Hlines, Hlen; cbn; lia).
    rewrite Hlines. reflexivity.
Qed.

Lemma C1_run_is_sequential_witness :
  let lines := scriptLines (script (ready two_lines)) in
  let w := fst (handleGenerate env_images (init_world (ready two_lines))) in
  let final := storyboard (state w) in
  List.length lines = 2
  /\ snd (handleGenerate env_images (init_world (ready two_lines))) = Normal tt
  /\ trace w = EvStoryboard [] :: iteration_events sample_character 0 lines final
  /\ calls_of (trace w) = map (panel_request sample_character) lines
  /\ map (@List.length _) (published_of (trace w))
     = 0 :: flat_map (fun k => [S k; S k]) (seq 0 2)
  /\ List.length final = 2
  /\ isLoading (state w) = false
  /\ error (state w) = None.
Proof.
  apply (@C1_run_is_sequential env_images (ready two_lines) sample_character 2).
  - reflexivity.
  - vm_compute. reflexivity.
  - lia.
  - reflexivity.
  - intros k line _. exists image_response. reflexivity.
Defined.

End CompletedRun.

(** ** Runs that reach a given line *)

Section ReachedLine.

Import StoryboardGenerator.

Variable env : Env.
Variable st : State.
Variable ch : CharacterReference.
Variables (before : list jsstring) (line : jsstring) (after : list jsstring).

Hypothesis Hch : character st = Some ch.
Hypothesis Hlines : scriptLines (script st) = before ++ line :: after.
Hypothesis Hnew : new_GoogleGenAI env = None.
Hypothesis Hbefore :
  forall i l, nth_error before i = Some l ->
    exists r, generateContent env i (panel_request ch l) = Returned r.

Lemma reached_not_blank : blank (script st) = false.
Proof.
  destruct (blank (script st)) eqn:E; [|reflexivity].
  apply blank_scriptLines in E. rewrite E in Hlines.
  destruct before; discriminate.
Qed.

(** After the guards, the run is its loop, then [catch]/[finally]. *)
Lemma reached_run :
  handleGenerate env (init_world st) =
  match for_lines env ch (before ++ line :: after) [] (run_start st) with
  | (w, Normal _) => (run_finished w, Normal tt)
  | (w, Throw e) => (run_caught e w, Normal tt)
  end.
Proof.
  rewrite (@handleGenerate_run env ch st Hch reached_not_blank), Hnew, Hlines.
  reflexivity.
Qed.

(** The world in which iteration [k = length before] starts. *)
Lemma reached_line :
  exists done w1,
    for_lines env ch (before ++ line :: after) [] (run_start st)
    = for_lines env ch (line :: after) done w1
    /\ List.length done = List.length before
    /\ state w1 = with_storyboard done (state (run_start st))
    /\ storyboard (state w1) = done
    /\ ncalls w1 = List.length before
    /\ nids w1 = List.length before
    /\ trace w1 = EvStoryboard [] :: iteration_events ch 0 before done
    /\ (forall i l r,
          nth_error before i = Some l ->
          generateContent env i (panel_request ch l) = Returned r ->
          nth_error done i = Some (finished_panel (date_random env i) l r)).
Proof.
  destruct (@for_lines_returns env ch before [] (run_start st) eq_refl)
    as (done & Hrun & Hlen & _ & Hnth).
  { intros i l Hl. apply Hbefore, Hl. }
  rewrite for_lines_app, Hrun.
  eexists done, _. split; [reflexivity|].
  cbn [state trace ncalls nids run_start with_storyboard storyboard
       List.length plus app] in *.
  repeat split; try assumption; reflexivity.
Qed.

(** The call of line [k] throws: the run ends there, with the
    placeholder of line [k] still in the list. *)
Lemma reached_rejected (e : Thrown) :
  generateContent env (List.length before) (panel_request ch line) = Rejected e ->
  let w := fst (handleGenerate env (init_world st)) in
  exists done,
    List.length done = List.length before
    /\ (forall i l r,
          nth_error before i = Some l ->
          generateContent env i (panel_request ch l) = Returned r ->
          nth_error done i = Some (finished_panel (date_random env i) l r))
    /\ storyboard (state w) = done ++ [placeholder done]
    /\ trace w = (EvStoryboard [] :: iteration_events ch 0 before done)
                 ++ [EvStoryboard (done ++ [placeholder done]);
                     EvCall (panel_request ch line)]
    /\ error (state w)
       = Some (error_message e (lit "An unknown error occurred during generation."))
    /\ isLoading (state w) = false.
Proof.
  intros Hr w. subst w. rewrite reached_run.
  destruct reached_line
    as (done & w1 & Hrun & Hlen & Hst1 & Hsb & Hnc & Hni & Htr & Hnth).
  rewrite Hrun, for_lines_cons, Hnc, Hr.
  exists done. split; [exact Hlen|]. split; [exact Hnth|].
  unfold run_caught, calling, on_state;
    cbn [fst state trace storyboard with_storyboard with_error with_isLoading
         error isLoading].
  rewrite Hsb, Htr. repeat split; reflexivity.
Qed.

(** The call of line [k] returns: its panel is recorded at position
    [k] and stays there, and the next line, if any, is attempted. *)
Lemma reached_returned (r : Response) :
  generateContent env (List.length before) (panel_request ch line) = Returned r ->
  let w := fst (handleGenerate env (init_world st)) in
  let p := finished_panel (date_random env (List.length before)) line r in
  exists done more tr,
    List.length done = List.length before
    /\ storyboard (state w) = (done ++ [p]) ++ more
    /\ trace w = (EvStoryboard [] :: iteration_events ch 0 before done)
                 ++ [EvStoryboard (done ++ [placeholder done]);
                     EvCall (panel_request ch line);
                     EvStoryboard (done ++ [p])] ++ tr
    /\ (forall next rest, after = next :: rest ->
          exists tr',
            tr = [EvStoryboard ((done ++ [p]) ++ [placeholder (done ++ [p])]);
                  EvCall (panel_request ch next)] ++ tr')
    /\ (after = [] -> more = [] /\ tr = [] /\ error (state w) = None)
    /\ isLoading (state w) = false.
Proof.
  intros Hr w p. subst w. rewrite reached_run.
  destruct reached_line
    as (done & w1 & Hrun & Hlen & Hst1 & Hsb & Hnc & Hni & Htr & _).
  rewrite Hrun, for_lines_cons, Hnc, Hni, Hr. cbv zeta. fold p.
  set (w2 := recorded (done ++ [p]) (calling ch line w1)).
  assert (Htr2 : trace w2
                 = (EvStoryboard [] :: iteration_events ch 0 before done)
                   ++ [EvStoryboard (done ++ [placeholder done]);
                       EvCall (panel_request ch line);
                       EvStoryboard (done ++ [p])]).
  { unfold w2, recorded, calling; cbn [trace]. rewrite Hsb, Htr, <- !app_assoc.
    reflexivity. }
  destruct after as [|next rest].
  - exists done, [], []. cbn [for_lines ret fst].
    unfold run_finished, on_state;
      cbn [state trace storyboard with_isLoading isLoading error].
    rewrite Htr2, !app_nil_r.
    repeat split; try reflexivity; try discriminate; [exact Hlen|].
    unfold w2, recorded, calling; cbn [state with_storyboard error].
    rewrite Hst1. reflexivity.
  - destruct (@for_lines_attempts env ch next rest (done ++ [p]) w2 eq_refl)
      as (more & tr & Hst & Htrl).
    destruct (for_lines env ch (next :: rest) (done ++ [p]) w2) as [wl c].
    cbn [fst] in Hst, Htrl.
    exists done, more,
      ([EvStoryboard ((done ++ [p]) ++ [placeholder (done ++ [p])]);
        EvCall (panel_request ch next)] ++ tr).
    split; [exact Hlen|].
    assert (Hfin : forall wf,
              wf = match c with
                   | Normal _ => run_finished wl
                   | Throw e => run_caught e wl
                   end ->
              storyboard (state wf) = (done ++ [p]) ++ more
              /\ trace wf = trace wl /\ isLoading (state wf) = false).
    { intros wf ->. destruct c; unfold run_finished, run_caught, on_state;
        cbn [state trace storyboard with_isLoading with_error isLoading];
        rewrite Hst; repeat split; reflexivity. }
    destruct c as [a|e];
      destruct (Hfin _ eq_refl) as (H1 & H2 & H3); cbn [fst];
      rewrite H1, H2, H3, Htrl, Htr2;
      (split; [reflexivity|]);
      (split; [rewrite <- !app_assoc; reflexivity|]);
      (split; [intros n' r' E; injection E as <- <-; eexists; reflexivity|]);
      (split; [discriminate|reflexivity]).
Qed.

End ReachedLine.

(** ** Per-line failures *)

Section LineFailures.

Import StoryboardGenerator.

(** C2, as stated, fails: with the script of two lines A and B and a
    service whose first call throws, the run ends with the placeholder
    of line 0 (empty image value, label "loading") where the failed
    panel should be, and line 1 is never requested. *)
Lemma C2_counterexample_transport_error :
  ~ stated_failure_tolerance (env_except 0 (Rejected failed_to_fetch))
      (ready two_lines) 0.
Proof.
  intros H.
  destruct (H sample_character (lit "A") eq_refl eq_refl I) as [[i Hi] _].
  vm_compute in Hi. discriminate Hi.
Qed.

(** C2, amended. In a run that reaches line [k] (the client was built
    and the calls of the lines before returned): when the call of line
    [k] returns a response without an image, the placeholder at
    position [k] is replaced by a panel with image value "error" and
    the line as label, which is still at position [k] when the run
    ends, and the run goes on: the next line, if there is one, gets its
    placeholder and its call, and if there is none the run ends without
    error. When the call of line [k] throws, the run ends there: the
    calls issued are those of lines 0 to [k], the thrown message is the
    error, and the busy flag is cleared. *)
Theorem C2_missing_image_marks_failed (env : Env) (st : State)
  (ch : CharacterReference) (before : list jsstring) (line : jsstring)
  (after : list jsstring) :
  character st = Some ch ->
  scriptLines (script st) = before ++ line :: after ->
  new_GoogleGenAI env = None ->
  (forall i l, nth_error before i = Some l ->
     exists r, generateContent env i (panel_request ch l) = Returned r) ->
  let k := List.length before in
  let w := fst (handleGenerate env (init_world st)) in
  match generateContent env k (panel_request ch line) with
  | Returned r =>
      imagePart_inlineData r = None ->
      let failed := {| id := date_random env k; src := lit "error";
                       prompt := line |} in
      nth_error (storyboard (state w)) k = Some failed
      /\ exists done pre post,
           List.length done = k
           /\ trace w = pre ++ [EvStoryboard (done ++ [placeholder done]);
                                EvCall (panel_request ch line);
                                EvStoryboard (done ++ [failed])] ++ post
           /\ (forall next rest, after = next :: rest ->
                 exists post',
                   post = [EvStoryboard ((done ++ [failed])
                                         ++ [placeholder (done ++ [failed])]);
                           EvCall (panel_request ch next)] ++ post')
           /\ (after = [] ->
                 post = [] /\ storyboard (state w) = done ++ [failed]
                 /\ error (state w) = None)
  | Rejected e =>
      calls_of (trace w) = map (panel_request ch) (before ++ [line])
      /\ error (state w)
         = Some (error_message e (lit "An unknown error occurred during generation."))
      /\ isLoading (state w) = false
  end.
Proof.
  intros Hch Hlines Hnew Hbefore k w.
  destruct (generateContent env k (panel_request ch line)) as [r|e] eqn:Hr.
  - intros Hnone failed.
    destruct (@reached_returned env st ch before line after Hch Hlines Hnew
                Hbefore r Hr)
      as (done & more & tr & Hlen & Hsb & Htr & Hnext & Hlast & _).
    fold w in Hsb, Htr, Hlast.
    assert (Hp : finished_panel (date_random env (List.length before)) line r
                 = failed).
    { unfold finished_panel. rewrite Hnone. reflexivity. }
    rewrite Hp in *. split.
    + rewrite Hsb, <- app_assoc, nth_error_app2 by (unfold k; lia).
      unfold k. rewrite Hlen, Nat.sub_diag. reflexivity.
    + exists done, (EvStoryboard [] :: iteration_events ch 0 before done), tr.
      repeat split; try assumption.
      * apply Hlast; assumption.
      * rewrite Hsb. destruct (Hlast H) as (-> & _). apply app_nil_r.
      * apply Hlast; assumption.
  - destruct (@reached_rejected env st ch before line after Hch Hlines Hnew
                Hbefore e Hr)
      as (done & Hlen & _ & _ & Htr & Herr & Hload).
    fold w in Htr, Herr, Hload. repeat split; try assumption.
    rewrite Htr.
    change (EvStoryboard [] :: iteration_events ch 0 before done)
      with ([EvStoryboard []] ++ iteration_events ch 0 before done).
    rewrite !calls_of_app, calls_of_iteration_events, map_app. reflexivity.
Qed.

Lemma C2_missing_image_marks_failed_witness :
  let env := env_except 0 (Returned text_response) in
  let w := fst (handleGenerate env (init_world (ready two_lines))) in
  let failed := {| id := sample_ids 0; src := lit "error"; prompt := lit "A" |} in
  nth_error (storyboard (state w)) 0 = Some failed
  /\ exists done pre post,
       List.length done = 0
       /\ trace w = pre ++ [EvStoryboard (done ++ [placeholder done]);
                            EvCall (panel_request sample_character (lit "A"));
                            EvStoryboard (done ++ [failed])] ++ post
       /\ (forall next rest, [lit "B"] = next :: rest ->
             exists post',
               post = [EvStoryboard ((done ++ [failed])
                                     ++ [placeholder (done ++ [failed])]);
                       EvCall (panel_request sample_character next)] ++ post')
       /\ ([lit "B"] = [] ->
             post = [] /\ storyboard (state w) = done ++ [failed]
             /\ error (state w) = None).
Proof.
  intros env w failed.
  refine (@C2_missing_image_marks_failed env (ready two_lines) sample_character
            [] (lit "A") [lit "B"] eq_refl eq_refl eq_refl _ eq_refl).
  intros i l Hl. destruct i; discriminate Hl.
Defined.

(** C3, on the run of the script of two lines A and B in which the
    first call returns an image and the second throws "Failed to
    fetch": the run stops, the message is the error and the busy flag
    is cleared, and the panel of line 0 is kept; but the published list
    has two entries, the second being the placeholder of line 1, which
    the grid renders as a panel still being generated. *)
Theorem C3_placeholder_left_after_throw :
  let env := env_except 1 (Rejected failed_to_fetch) in
  let w := fst (handleGenerate env (init_world (ready two_lines))) in
  let panelA := {| id := sample_ids 0; src := data_url sample_image;
                   prompt := lit "A" |} in
  let pending := {| id := lit "loading-1"; src := []; prompt := lit "loading" |} in
  calls_of (trace w) = [panel_request sample_character (lit "A");
                        panel_request sample_character (lit "B")]
  /\ error (state w) = Some (lit "Failed to fetch")
  /\ isLoading (state w) = false
  /\ storyboard (state w) = [panelA; pending]
  /\ storyboard (state w) <> [panelA]
  /\ tile pending = Pending.
Proof.
  vm_compute. repeat split; try reflexivity. discriminate.
Qed.

(** C10. The tile of a panel is chosen from its own fields: the spinner
    exactly when the label is "loading", otherwise the failure text
    exactly when the image value is "error". So when a run reaches a
    line that reads "loading" and its call returns an image, the panel
    recorded at that position, and still there when the run ends,
    holds the image and the label "loading", and is rendered as the
    spinner, like a placeholder. *)
Theorem C10_loading_line_rendered_pending (env : Env) (st : State)
  (ch : CharacterReference) (before after : list jsstring)
  (r : Response) (d : InlineData) :
  character st = Some ch ->
  scriptLines (script st) = before ++ lit "loading" :: after ->
  new_GoogleGenAI env = None ->
  (forall i l, nth_error before i = Some l ->
     exists r', generateContent env i (panel_request ch l) = Returned r') ->
  generateContent env (List.length before) (panel_request ch (lit "loading"))
  = Returned r ->
  imagePart_inlineData r = Some d ->
  let k := List.length before in
  let w := fst (handleGenerate env (init_world st)) in
  (forall panel, tile panel = Pending <-> prompt panel = lit "loading")
  /\ (forall panel,
        tile panel = Failed
        <-> prompt panel <> lit "loading" /\ src panel = lit "error")
  /\ exists panel,
       nth_error (storyboard (state w)) k = Some panel
       /\ src panel = data_url d
       /\ prompt panel = lit "loading"
       /\ tile panel = Pending
       /\ forall prev, tile panel = tile (placeholder prev).
Proof.
  intros Hch Hlines Hnew Hbefore Hr Himg k w.
  assert (Htile : forall panel, tile panel = Pending <-> prompt panel = lit "loading").
  { intros panel. unfold tile.
    destruct (str_eqb (prompt panel) (lit "loading")) eqn:E.
    - apply str_eqb_eq in E. tauto.
    - split; [destruct (str_eqb (src panel) (lit "error")); discriminate|].
      intros H. apply str_eqb_eq in H. congruence. }
  split; [exact Htile|]. split.
  - intros panel. unfold tile.
    destruct (str_eqb (prompt panel) (lit "loading")) eqn:E.
    + apply str_eqb_eq in E. split; [discriminate|tauto].
    + assert (prompt panel <> lit "loading")
        by (intros H; apply str_eqb_eq in H; congruence).
      destruct (str_eqb (src panel) (lit "error")) eqn:F.
      * apply str_eqb_eq in F. tauto.
      * split; [discriminate|]. intros [_ H']. apply str_eqb_eq in H'. congruence.
  - destruct (@reached_returned env st ch before (lit "loading") after Hch Hlines
                Hnew Hbefore r Hr)
      as (done & more & tr & Hlen & Hsb & _).
    fold w in Hsb.
    exists {| id := date_random env k; src := data_url d; prompt := lit "loading" |}.
    split.
    + rewrite Hsb, <- app_assoc, nth_error_app2 by (unfold k; lia).
      unfold k. rewrite Hlen, Nat.sub_diag. unfold finished_panel.
      rewrite Himg. reflexivity.
    + repeat split; reflexivity.
Qed.

Lemma C10_loading_line_rendered_pending_witness :
  let w := fst (handleGenerate env_images (init_world (ready (lit "loading")))) in
  (forall panel, tile panel = Pending <-> prompt panel = lit "loading")
  /\ (forall panel,
        tile panel = Failed
        <-> prompt panel <> lit "loading" /\ src panel = lit "error")
  /\ exists panel,
       nth_error (storyboard (state w)) 0 = Some panel
       /\ src panel = data_url sample_image
       /\ prompt panel = lit "loading"
       /\ tile panel = Pending
       /\ forall prev, tile panel = tile (placeholder prev).
Proof.
  refine (@C10_loading_line_rendered_pending env_images (ready (lit "loading"))
            sample_character [] [] image_response sample_image
            eq_refl eq_refl eq_refl _ eq_refl eq_refl).
  intros i l Hl. destruct i; discriminate Hl.
Defined.

End LineFailures.

(** ** Parsing a script line *)

Section Lines.

Import StoryboardGenerator.

Lemma before_first_none (sep : N) (s : jsstring) :
  after_first sep s = None -> before_first sep s = s.
Proof.
  induction s as [|c r IH]; [reflexivity|].
  cbn [after_first before_first]. destruct (N.eqb c sep); [discriminate|].
  intros H. rewrite IH by exact H. reflexivity.
Qed.

Lemma split_cons (sep : N) (s : jsstring) :
  split sep s =
  before_first sep s ::
  match after_first sep s with
  | Some r => split sep r
  | None => []
  end.
Proof. unfold split at 1. rewrite split_fields_first. reflexivity. Qed.

(** C5, as stated, fails on the line "A | B | C": the code yields the
    caption "B", splitting on the first bar only yields "B | C". *)
Lemma C5_counterexample_second_bar :
  parse_line three_fields = (lit "A", Some (lit "B"))
  /\ split_on_first_bar three_fields = (lit "A", Some (lit "B | C"))
  /\ ~ stated_first_bar_split three_fields.
Proof.
  split; [reflexivity|]. split; [reflexivity|].
  unfold stated_first_bar_split. vm_compute. discriminate.
Qed.

(** C5, amended. The scene description is the trimmed text before the
    first bar and the caption is the trimmed text between the first bar
    and the second: a line without a bar has no caption, a line with
    one bar has as caption the trimmed text after it, and in a line
    with more bars what follows the second bar is dropped. *)
Theorem C5_line_fields (line : jsstring) :
  parse_line line
  = (trim (before_first BAR line),
     option_map (fun rest => trim (before_first BAR rest)) (after_first BAR line))
  /\ match after_first BAR line with
     | None => parse_line line = (trim line, None)
     | Some rest =>
         match after_first BAR rest with
         | None =>
             parse_line line = (trim (before_first BAR line), Some (trim rest))
         | Some _ =>
             parse_line line
             = (trim (before_first BAR line), Some (trim (before_first BAR rest)))
         end
     end.
Proof.
  assert (H : parse_line line
              = (trim (before_first BAR line),
                 option_map (fun rest => trim (before_first BAR rest))
                            (after_first BAR line))).
  { unfold parse_line. rewrite split_cons. cbn [map hd nth_error].
    destruct (after_first BAR line) as [rest|]; [|reflexivity].
    rewrite split_cons. reflexivity. }
  split; [exact H|]. rewrite H.
  destruct (after_first BAR line) as [rest|] eqn:E; cbn [option_map].
  - destruct (after_first BAR rest) eqn:F; [reflexivity|].
    rewrite (before_first_none _ _ F). reflexivity.
  - rewrite (before_first_none _ _ E). reflexivity.
Qed.

End Lines.

(** ** Guards and resets *)

Section Guards.

(** A character generation that succeeds: one call, then the new
    character and an empty panel list. *)
Lemma handleCreateCharacter_success (env : Env)
  (st : StoryboardGenerator.State) (r : Response) (d : InlineData) :
  blank (StoryboardGenerator.characterDescription st) = false ->
  new_GoogleGenAI env = None ->
  generateContent env 0
    {| model := MODEL;
       parts := [TextPart (StoryboardGenerator.character_prompt
                             (StoryboardGenerator.characterDescription st))];
       responseModalities := [IMAGE] |} = Returned r ->
  imagePart_inlineData r = Some d ->
  StoryboardGenerator.handleCreateCharacter env (init_world st)
  = ({| state :=
          StoryboardGenerator.with_isCreatingCharacter false
            (StoryboardGenerator.with_storyboard []
               (StoryboardGenerator.with_character
                  (Some {| cr_base64 := data d; cr_mimeType := mimeType d;
                           cr_file := None |})
                  (StoryboardGenerator.with_error None
                     (StoryboardGenerator.with_isCreatingCharacter true st))));
        trace :=
          [EvCall
             {| model := MODEL;
                parts := [TextPart (StoryboardGenerator.character_prompt
                                      (StoryboardGenerator.characterDescription st))];
                responseModalities := [IMAGE] |};
           EvStoryboard []];
        ncalls := 1;
        nids := 0 |}, Normal tt).
Proof.
  intros Hb Hnew Hr Hd.
  unfold StoryboardGenerator.handleCreateCharacter, bind at 1, get.
  cbn [init_world state]. rewrite truthy_trim, Hb. cbn [negb].
  unfold bind, try_catch_finally, newGoogleGenAI, await_generateContent,
    StoryboardGenerator.setIsCreatingCharacter, StoryboardGenerator.setError,
    modify, on_state; cbn -[MODEL StoryboardGenerator.character_prompt].
  rewrite Hnew. cbn -[MODEL StoryboardGenerator.character_prompt].
  rewrite Hr, Hd. reflexivity.
Qed.

(** C6. Uploading a character image, clearing the character, and a
    successful generation of a character from a description each leave
    the panel list empty; clearing also empties the description. *)
Theorem C6_character_change_empties_panels (env : Env)
  (st : StoryboardGenerator.State) :
  (forall image,
     let st' := state (fst (StoryboardGenerator.handleImageUpload image
                              (init_world st))) in
     StoryboardGenerator.storyboard st' = []
     /\ StoryboardGenerator.character st'
        = Some {| cr_base64 := ui_base64 image;
                  cr_mimeType := file_type (ui_file image);
                  cr_file := Some (ui_file image) |})
  /\ (let st' := state (fst (StoryboardGenerator.handleClearCharacter
                              (init_world st))) in
      StoryboardGenerator.storyboard st' = []
      /\ StoryboardGenerator.character st' = None
      /\ StoryboardGenerator.characterDescription st' = [])
  /\ (forall r d,
        blank (StoryboardGenerator.characterDescription st) = false ->
        new_GoogleGenAI env = None ->
        generateContent env 0
          {| model := MODEL;
             parts := [TextPart (StoryboardGenerator.character_prompt
                                   (StoryboardGenerator.characterDescription st))];
             responseModalities := [IMAGE] |} = Returned r ->
        imagePart_inlineData r = Some d ->
        let st' := state (fst (StoryboardGenerator.handleCreateCharacter env
                                 (init_world st))) in
        StoryboardGenerator.storyboard st' = []
        /\ StoryboardGenerator.character st'
           = Some {| cr_base64 := data d; cr_mimeType := mimeType d;
                     cr_file := None |}).
Proof.
  split; [intros image; split; reflexivity|].
  split; [repeat split; reflexivity|].
  intros r d Hb Hnew Hr Hd.
  rewrite (@handleCreateCharacter_success env st r d Hb Hnew Hr Hd).
  split; reflexivity.
Qed.

Lemma C6_character_change_empties_panels_witness :
  let st' := state (fst (StoryboardGenerator.handleCreateCharacter env_images
                           (init_world describing))) in
  StoryboardGenerator.storyboard describing <> []
  /\ StoryboardGenerator.storyboard st' = []
  /\ StoryboardGenerator.character st'
     = Some {| cr_base64 := data sample_image;
               cr_mimeType := mimeType sample_image; cr_file := None |}.
Proof.
  split; [discriminate|].
  refine (proj2 (proj2 (C6_character_change_empties_panels env_images describing))
            image_response sample_image eq_refl eq_refl eq_refl eq_refl).
Defined.

(** C7. A submission whose required text is blank, and a storyboard
    submission without a character reference, only sets the validation
    message: the handler returns with the error set and every other
    state variable as before, nothing was requested from the service
    and nothing was published. *)
Theorem C7_blank_submission_rejected (env : Env) :
  (forall w : World ImageStudio.State,
     blank (ImageStudio.prompt (state w)) = true ->
     ImageStudio.handleGenerate env w
     = (on_state (ImageStudio.with_error (Some (lit "Please enter a prompt."))) w,
        Normal tt))
  /\ (forall w : World StoryboardGenerator.State,
        blank (StoryboardGenerator.characterDescription (state w)) = true ->
        StoryboardGenerator.handleCreateCharacter env w
        = (on_state (StoryboardGenerator.with_error
                       (Some (lit "Please describe the character you want to create.")))
                    w,
           Normal tt))
  /\ (forall w : World StoryboardGenerator.State,
        StoryboardGenerator.character (state w) = None ->
        StoryboardGenerator.handleGenerate env w
        = (on_state (StoryboardGenerator.with_error
                       (Some (lit "Please upload or create a character reference image.")))
                    w,
           Normal tt))
  /\ (forall w : World StoryboardGenerator.State,
        StoryboardGenerator.character (state w) <> None ->
        blank (StoryboardGenerator.script (state w)) = true ->
        StoryboardGenerator.handleGenerate env w
        = (on_state (StoryboardGenerator.with_error
                       (Some (lit "Please enter a script for the storyboard.")))
                    w,
           Normal tt)).
Proof.
  repeat split.
  - intros w Hb. unfold ImageStudio.handleGenerate, bind, get.
    rewrite truthy_trim, Hb. reflexivity.
  - intros w Hb. unfold StoryboardGenerator.handleCreateCharacter, bind, get.
    rewrite truthy_trim, Hb. reflexivity.
  - intros w Hc. unfold StoryboardGenerator.handleGenerate, bind, get.
    rewrite Hc. reflexivity.
  - intros w Hc Hb. unfold StoryboardGenerator.handleGenerate, bind, get.
    destruct (StoryboardGenerator.character (state w)); [|congruence].
    rewrite truthy_trim, Hb. reflexivity.
Qed.

Lemma C7_blank_submission_rejected_witness :
  ImageStudio.handleGenerate env_images
    (init_world (ImageStudio.with_prompt (lit "  ") ImageStudio.initial))
  = (init_world
       (ImageStudio.with_error (Some (lit "Please enter a prompt."))
          (ImageStudio.with_prompt (lit "  ") ImageStudio.initial)),
     Normal tt)
  /\ StoryboardGenerator.handleCreateCharacter env_images
       (init_world (StoryboardGenerator.with_characterDescription [LF]
                      StoryboardGenerator.initial))
     = (init_world
          (StoryboardGenerator.with_error
             (Some (lit "Please describe the character you want to create."))
             (StoryboardGenerator.with_characterDescription [LF]
                StoryboardGenerator.initial)),
        Normal tt)
  /\ StoryboardGenerator.handleGenerate env_images
       (init_world (StoryboardGenerator.with_script two_lines
                      StoryboardGenerator.initial))
     = (init_world
          (StoryboardGenerator.with_error
             (Some (lit "Please upload or create a character reference image."))
             (StoryboardGenerator.with_script two_lines
                StoryboardGenerator.initial)),
        Normal tt)
  /\ StoryboardGenerator.handleGenerate env_images (init_world (ready blank_script))
     = (init_world
          (StoryboardGenerator.with_error
             (Some (lit "Please enter a script for the storyboard."))
             (ready blank_script)),
        Normal tt).
Proof.
  destruct (C7_blank_submission_rejected env_images) as (H1 & H2 & H3 & H4).
  split; [apply H1; reflexivity|].
  split; [apply H2; reflexivity|].
  split; [apply H3; reflexivity|].
  apply H4; [discriminate | reflexivity].
Defined.

(** C8, as stated, fails: with the sample character and a script of two
    lines of spaces, the run is refused with the script validation
    message. *)
Lemma C8_counterexample_blank_script :
  StoryboardGenerator.error
    (state (fst (StoryboardGenerator.handleGenerate env_images
                   (init_world (ready blank_script)))))
  = Some (lit "Please enter a script for the storyboard.")
  /\ ~ stated_blank_script_succeeds env_images (ready blank_script).
Proof.
  split; [reflexivity|].
  intros H. destruct H as (_ & _ & H); [discriminate|reflexivity|].
  vm_compute in H. discriminate H.
Qed.

(** C8, amended. A script all of whose lines are blank is a blank
    script, and submitting it makes no call and publishes nothing: it
    sets a validation message (the character message when there is no
    character reference, the script message otherwise) and leaves the
    rest of the state, the panel list included, as it was. *)
Theorem C8_blank_lines_rejected (env : Env) (st : StoryboardGenerator.State) :
  forallb blank (split LF (StoryboardGenerator.script st)) = true ->
  let w := fst (StoryboardGenerator.handleGenerate env (init_world st)) in
  StoryboardGenerator.scriptLines (StoryboardGenerator.script st) = []
  /\ trace w = []
  /\ ncalls w = 0
  /\ StoryboardGenerator.storyboard (state w) = StoryboardGenerator.storyboard st
  /\ state w
     = StoryboardGenerator.with_error
         (Some (match StoryboardGenerator.character st with
                | None => lit "Please upload or create a character reference image."
                | Some _ => lit "Please enter a script for the storyboard."
                end)) st.
Proof.
  intros H w. rewrite <- blank_lines in H.
  split; [apply blank_scriptLines, H|].
  subst w. unfold StoryboardGenerator.handleGenerate, bind, get.
  cbn [init_world state].
  destruct (StoryboardGenerator.character st).
  - rewrite truthy_trim, H. repeat split; reflexivity.
  - repeat split; reflexivity.
Qed.

Lemma C8_blank_lines_rejected_witness :
  let w := fst (StoryboardGenerator.handleGenerate env_images
                  (init_world (ready blank_script))) in
  StoryboardGenerator.scriptLines blank_script = []
  /\ trace w = []
  /\ ncalls w = 0
  /\ StoryboardGenerator.storyboard (state w) = []
  /\ state w
     = StoryboardGenerator.with_error
         (Some (lit "Please enter a script for the storyboard."))
         (ready blank_script).
Proof.
  exact (C8_blank_lines_rejected env_images (ready blank_script) eq_refl).
Defined.

(** C9, as stated, fails: clearing the input image after a successful
    generation leaves the output image in place. *)
Lemma C9_counterexample_output_kept :
  ImageStudio.outputImage
    (state (fst (ImageStudio.handleClearImage (init_world studio_with_output))))
  = Some (data_url sample_image)
  /\ ~ stated_clear_resets studio_with_output.
Proof.
  split; [reflexivity|].
  intros (H & _). vm_compute in H. discriminate H.
Qed.

(** C9, amended. Clearing the input image only removes the input
    image: output image, error message, prompt text and busy flag stay
    as they were. Uploading an image stores it, resets the output image
    and the error message, and leaves the prompt text unchanged. *)
Theorem C9_clear_removes_input_only (st : ImageStudio.State) :
  (let st' := state (fst (ImageStudio.handleClearImage (init_world st))) in
   ImageStudio.inputImage st' = None
   /\ ImageStudio.outputImage st' = ImageStudio.outputImage st
   /\ ImageStudio.error st' = ImageStudio.error st
   /\ ImageStudio.prompt st' = ImageStudio.prompt st
   /\ ImageStudio.isLoading st' = ImageStudio.isLoading st)
  /\ (forall image,
        let st' := state (fst (ImageStudio.handleImageUpload image
                                 (init_world st))) in
        ImageStudio.inputImage st' = Some image
        /\ ImageStudio.outputImage st' = None
        /\ ImageStudio.error st' = None
        /\ ImageStudio.prompt st' = ImageStudio.prompt st
        /\ ImageStudio.isLoading st' = ImageStudio.isLoading st).
Proof.
  split; [|intros image]; repeat split; reflexivity.
Qed.

End Guards.

(** ** The shell *)

Section Shell.

(** C4, as stated, fails: with a prompt typed into the single-image
    workflow, going to the storyboard and back shows the single-image
    workflow with an empty prompt. *)
Lemma C4_counterexample_prompt_lost :
  App.imageStudio_instance (there_and_back app_with_prompt)
  = Some ImageStudio.initial
  /\ ~ stated_switch_preserves app_with_prompt.
Proof.
  split; [reflexivity|].
  unfold stated_switch_preserves. vm_compute. discriminate.
Qed.

(** C4, amended. Switching to the other workflow unmounts the one
    shown, and switching back mounts it anew: whatever the state
    before, the workflow shown afterwards is in its initial state
    (empty text, no image, no panel, no error), and the other one is
    not mounted. *)
Theorem C4_switch_and_back_remounts (app : App.State) :
  there_and_back app =
  match App.activeTool app with
  | App.imageStudio =>
      {| App.activeTool := App.imageStudio;
         App.imageStudio_instance := Some ImageStudio.initial;
         App.storyboard_instance := None |}
  | App.storyboard =>
      {| App.activeTool := App.storyboard;
         App.imageStudio_instance := None;
         App.storyboard_instance := Some StoryboardGenerator.initial |}
  end.
Proof.
  unfold there_and_back. destruct (App.activeTool app); reflexivity.
Qed.

End Shell.

(** ** Single-image generation, whatever the service does *)

Section StudioRuns.

Lemma data_url_truthy (d : InlineData) : truthy (data_url d) = true.
Proof. reflexivity. Qed.

Lemma data_url_not_error (d : InlineData) :
  str_eqb (data_url d) (lit "error") = false.
Proof. reflexivity. Qed.

(** A submission that passes the guard, case by case. *)
Lemma studio_run (env : Env) (st : ImageStudio.State) :
  blank (ImageStudio.prompt st) = false ->
  let st0 := ImageStudio.with_outputImage None
               (ImageStudio.with_error None (ImageStudio.with_isLoading true st)) in
  let failed e calls n :=
    ({| state := ImageStudio.with_isLoading false
                   (ImageStudio.with_error
                      (Some (error_message e (lit "An unknown error occurred."))) st0);
        trace := calls; ncalls := n; nids := 0 |}, Normal tt) in
  ImageStudio.handleGenerate env (init_world st) =
  match new_GoogleGenAI env with
  | Some e => failed e [] 0
  | None =>
      match generateContent env 0 (studio_request st) with
      | Rejected e => failed e [EvCall (studio_request st)] 1
      | Returned r =>
          match imagePart_inlineData r with
          | Some d =>
              ({| state := ImageStudio.with_isLoading false
                             (ImageStudio.with_outputImage (Some (data_url d)) st0);
                  trace := [EvCall (studio_request st)]; ncalls := 1; nids := 0 |},
               Normal tt)
          | None =>
              failed (ThrownError
                        (lit "Image generation failed. The model did not return an image."))
                     [EvCall (studio_request st)] 1
          end
      end
  end.
Proof.
  intros Hb st0 failed.
  unfold ImageStudio.handleGenerate, bind at 1, get.
  cbn [init_world state]. rewrite truthy_trim, Hb. cbn [negb].
  fold (studio_request st).
  unfold bind, try_catch_finally, newGoogleGenAI, await_generateContent,
    ImageStudio.setIsLoading, ImageStudio.setError, ImageStudio.setOutputImage,
    modify, on_state, throw, ret, failed, st0;
    cbn -[MODEL studio_request data_url].
  destruct (new_GoogleGenAI env) as [e|]; [reflexivity|].
  cbn -[MODEL studio_request data_url].
  destruct (generateContent env 0 (studio_request st)) as [r|e]; [|reflexivity].
  destruct (imagePart_inlineData r); reflexivity.
Qed.

(** X1. A non-blank prompt whose generation succeeds: exactly one
    request went out, made of the input image, when there is one,
    followed by the prompt text exactly as typed; the returned image is
    the output, shown in the display area; there is no error and the
    workflow is not busy. *)
Theorem X1_studio_success (env : Env) (st : ImageStudio.State)
  (r : Response) (d : InlineData) :
  blank (ImageStudio.prompt st) = false ->
  new_GoogleGenAI env = None ->
  generateContent env 0 (studio_request st) = Returned r ->
  imagePart_inlineData r = Some d ->
  let w := fst (ImageStudio.handleGenerate env (init_world st)) in
  calls_of (trace w) = [studio_request st]
  /\ parts (studio_request st)
     = match ImageStudio.inputImage st with
       | Some img =>
           [InlineDataPart {| data := ui_base64 img;
                              mimeType := file_type (ui_file img) |};
            TextPart (ImageStudio.prompt st)]
       | None => [TextPart (ImageStudio.prompt st)]
       end
  /\ ImageStudio.outputImage (state w) = Some (data_url d)
  /\ ImageStudio.error (state w) = None
  /\ ImageStudio.isLoading (state w) = false
  /\ studio_display (state w) = StudioImage (data_url d).
Proof.
  intros Hb Hnew Hr Hd w. subst w.
  rewrite (studio_run env st Hb), Hnew, Hr, Hd.
  repeat split; try reflexivity.
  unfold studio_request, ImageStudio.request_parts; cbn [parts].
  destruct (ImageStudio.inputImage st); reflexivity.
Qed.

Lemma X1_studio_success_witness :
  let st := ImageStudio.with_prompt (lit "a cat") ImageStudio.initial in
  let w := fst (ImageStudio.handleGenerate env_images (init_world st)) in
  calls_of (trace w) = [studio_request st]
  /\ parts (studio_request st) = [TextPart (lit "a cat")]
  /\ ImageStudio.outputImage (state w) = Some (data_url sample_image)
  /\ ImageStudio.error (state w) = None
  /\ ImageStudio.isLoading (state w) = false
  /\ studio_display (state w) = StudioImage (data_url sample_image).
Proof.
  exact (@X1_studio_success env_images
           (ImageStudio.with_prompt (lit "a cat") ImageStudio.initial)
           image_response sample_image eq_refl eq_refl eq_refl eq_refl).
Defined.

(** X2. A non-blank prompt, whatever the service does: the handler
    never throws, makes at most one request, ends not busy, and leaves
    the prompt and the input image as they were. It ends in one of two
    ways: an output image, shown, and no error; or no output image, the
    empty state shown, and an error message, whose paragraph is
    rendered unless the message is the empty string. *)
Theorem X2_studio_outcome (env : Env) (st : ImageStudio.State) :
  blank (ImageStudio.prompt st) = false ->
  let res := ImageStudio.handleGenerate env (init_world st) in
  let st' := state (fst res) in
  snd res = Normal tt
  /\ List.length (calls_of (trace (fst res))) <= 1
  /\ ImageStudio.isLoading st' = false
  /\ ImageStudio.prompt st' = ImageStudio.prompt st
  /\ ImageStudio.inputImage st' = ImageStudio.inputImage st
  /\ ((exists d,
         ImageStudio.outputImage st' = Some (data_url d)
         /\ ImageStudio.error st' = None
         /\ studio_display st' = StudioImage (data_url d))
      \/ (exists m,
            ImageStudio.outputImage st' = None
            /\ ImageStudio.error st' = Some m
            /\ studio_display st' = StudioEmpty
            /\ (banner (ImageStudio.error st') = None <-> m = []))).
Proof.
  intros Hb res st'. subst st' res.
  rewrite (studio_run env st Hb).
  assert (Hbanner : forall m : jsstring, banner (Some m) = None <-> m = []).
  { intros [|c m]; cbn; split; congruence. }
  assert (Hfail : forall (m : jsstring) tr n,
            n <= 1 -> List.length (calls_of tr) <= 1 ->
            let res :=
              ({| state :=
                    ImageStudio.with_isLoading false
                      (ImageStudio.with_error (Some m)
                         (ImageStudio.with_outputImage None
                            (ImageStudio.with_error None
                               (ImageStudio.with_isLoading true st))));
                  trace := tr; ncalls := n; nids := 0 |}, Normal tt) in
            snd res = Normal tt
            /\ List.length (calls_of (trace (fst res))) <= 1
            /\ ImageStudio.isLoading (state (fst res)) = false
            /\ ImageStudio.prompt (state (fst res)) = ImageStudio.prompt st
            /\ ImageStudio.inputImage (state (fst res)) = ImageStudio.inputImage st
            /\ ((exists d,
                   ImageStudio.outputImage (state (fst res)) = Some (data_url d)
                   /\ ImageStudio.error (state (fst res)) = None
                   /\ studio_display (state (fst res)) = StudioImage (data_url d))
                \/ (exists m',
                      ImageStudio.outputImage (state (fst res)) = None
                      /\ ImageStudio.error (state (fst res)) = Some m'
                      /\ studio_display (state (fst res)) = StudioEmpty
                      /\ (banner (ImageStudio.error (state (fst res))) = None
                          <-> m' = [])))).
  { intros m tr n Hn Htr res. subst res. cbn [fst snd state trace].
    split; [reflexivity|]. split; [exact Htr|].
    split; [reflexivity|]. split; [reflexivity|]. split; [reflexivity|].
    right. exists m.
    split; [reflexivity|]. split; [reflexivity|]. split; [reflexivity|].
    apply Hbanner. }
  destruct (new_GoogleGenAI env) as [e|].
  { apply Hfail; cbn; lia. }
  destruct (generateContent env 0 (studio_request st)) as [r|e].
  - destruct (imagePart_inlineData r) as [d|].
    + cbn [fst snd state trace].
      split; [reflexivity|]. split; [cbn; lia|].
      split; [reflexivity|]. split; [reflexivity|]. split; [reflexivity|].
      left. exists d. repeat split; reflexivity.
    + apply Hfail; cbn; lia.
  - apply Hfail; cbn; lia.
Qed.

Lemma X2_studio_outcome_witness :
  let st := ImageStudio.with_prompt (lit "a cat") ImageStudio.initial in
  let res := ImageStudio.handleGenerate
               (env_except 0 (Rejected (ThrownError []))) (init_world st) in
  let st' := state (fst res) in
  ImageStudio.error st' = Some []
  /\ banner (ImageStudio.error st') = None
  /\ snd res = Normal tt
  /\ ImageStudio.isLoading st' = false.
Proof.
  intros st res st'.
  destruct (@X2_studio_outcome (env_except 0 (Rejected (ThrownError []))) st eq_refl)
    as (Hn & _ & Hl & _).
  split; [reflexivity|]. split; [reflexivity|]. split; [exact Hn | exact Hl].
Defined.

End StudioRuns.

(** ** Character generation, whatever the service does *)

Section CharacterRuns.

Import StoryboardGenerator.

(** A submission that passes the guard, case by case. *)
Lemma character_run (env : Env) (st : State) :
  blank (characterDescription st) = false ->
  let st0 := with_error None (with_isCreatingCharacter true st) in
  let failed e calls n :=
    ({| state := with_isCreatingCharacter false
                   (with_error
                      (Some (error_message e
                         (lit "An unknown error occurred while creating the character.")))
                      st0);
        trace := calls; ncalls := n; nids := 0 |}, Normal tt) in
  handleCreateCharacter env (init_world st) =
  match new_GoogleGenAI env with
  | Some e => failed e [] 0
  | None =>
      match generateContent env 0 (character_request st) with
      | Rejected e => failed e [EvCall (character_request st)] 1
      | Returned r =>
          match imagePart_inlineData r with
          | Some d =>
              ({| state := with_isCreatingCharacter false
                             (with_storyboard []
                                (with_character
                                   (Some {| cr_base64 := data d;
                                            cr_mimeType := mimeType d;
                                            cr_file := None |}) st0));
                  trace := [EvCall (character_request st); EvStoryboard []];
                  ncalls := 1; nids := 0 |},
               Normal tt)
          | None =>
              failed (ThrownError
                        (lit "The AI failed to generate a character. Please try again."))
                     [EvCall (character_request st)] 1
          end
      end
  end.
Proof.
  intros Hb st0 failed.
  unfold handleCreateCharacter, bind at 1, get.
  cbn [init_world state]. rewrite truthy_trim, Hb. cbn [negb].
  fold (character_request st).
  unfold bind, try_catch_finally, newGoogleGenAI, await_generateContent,
    setIsCreatingCharacter, setError, setCharacter, setStoryboard,
    setStoryboardWith, get, emit, modify, on_state, throw, ret, failed, st0;
    cbn -[MODEL character_request].
  destruct (new_GoogleGenAI env) as [e|]; [reflexivity|].
  cbn -[MODEL character_request].
  destruct (generateContent env 0 (character_request st)) as [r|e]; [|reflexivity].
  destruct (imagePart_inlineData r); reflexivity.
Qed.

(** X3. A non-blank description, whatever the service does: the
    handler never throws, makes at most one request, whose only part is
    the template text around the description as typed, ends with the
    creation flag cleared, and leaves description, script, acquisition
    mode and the storyboard busy flag as they were. Either the returned
    image becomes the character reference (without a file handle), the
    panel list is emptied and there is no error; or an error message is
    set, and the character reference and the panel list are untouched,
    nothing having been published. *)
Theorem X3_character_outcome (env : Env) (st : State) :
  blank (characterDescription st) = false ->
  let res := handleCreateCharacter env (init_world st) in
  let st' := state (fst res) in
  snd res = Normal tt
  /\ (calls_of (trace (fst res)) = []
      \/ calls_of (trace (fst res)) = [character_request st])
  /\ isCreatingCharacter st' = false
  /\ characterDescription st' = characterDescription st
  /\ script st' = script st
  /\ characterCreationMode st' = characterCreationMode st
  /\ isLoading st' = isLoading st
  /\ ((exists d,
         character st' = Some {| cr_base64 := data d; cr_mimeType := mimeType d;
                                 cr_file := None |}
         /\ storyboard st' = []
         /\ error st' = None)
      \/ (exists m,
            error st' = Some m
            /\ character st' = character st
            /\ storyboard st' = storyboard st
            /\ published_of (trace (fst res)) = [])).
Proof.
  intros Hb res st'. subst st' res.
  rewrite (character_run env st Hb).
  destruct (new_GoogleGenAI env) as [e|].
  { cbn -[character_request]. repeat (split; [auto; fail|]).
    right. eexists. repeat split; reflexivity. }
  destruct (generateContent env 0 (character_request st)) as [r|e].
  - destruct (imagePart_inlineData r) as [d|].
    + cbn -[character_request]. repeat (split; [auto; fail|]).
      left. exists d. repeat split; reflexivity.
    + cbn -[character_request]. repeat (split; [auto; fail|]).
      right. eexists. repeat split; reflexivity.
  - cbn -[character_request]. repeat (split; [auto; fail|]).
    right. eexists. repeat split; reflexivity.
Qed.

Lemma X3_character_outcome_witness :
  let res := handleCreateCharacter (env_except 0 (Returned text_response))
               (init_world describing) in
  let st' := state (fst res) in
  snd res = Normal tt
  /\ isCreatingCharacter st' = false
  /\ storyboard st' = storyboard describing
  /\ error st' = Some (lit "The AI failed to generate a character. Please try again.").
Proof.
  intros res st'.
  destruct (@X3_character_outcome (env_except 0 (Returned text_response))
              describing eq_refl) as (Hn & _ & Hc & _).
  split; [exact Hn|]. split; [exact Hc|]. split; reflexivity.
Defined.

End CharacterRuns.

(** ** Storyboard runs, whatever the service does *)

Section AnyRun.

Import StoryboardGenerator.

Variable env : Env.
Variable ch : CharacterReference.

(** Either every call of the lines returns, or there is a first one
    that throws. *)
Lemma first_rejection (lines : list jsstring) :
  forall start,
    (forall i l, nth_error lines i = Some l ->
       exists r, generateContent env (start + i) (panel_request ch l) = Returned r)
    \/ (exists before line after e,
          lines = before ++ line :: after
          /\ (forall i l, nth_error before i = Some l ->
                exists r, generateContent env (start + i) (panel_request ch l)
                          = Returned r)
          /\ generateContent env (start + List.length before) (panel_request ch line)
             = Rejected e).
Proof.
  induction lines as [|line rest IH]; intros start.
  - left. intros i l H. destruct i; discriminate H.
  - destruct (generateContent env start (panel_request ch line)) as [r|e] eqn:Hr.
    + destruct (IH (S start)) as [Hall | (before & l' & after & e & -> & Hb & He)].
      * left. intros i l Hl. destruct i as [|i].
        -- injection Hl as <-. rewrite Nat.add_0_r. eauto.
        -- replace (start + S i) with (S start + i) by lia. apply Hall, Hl.
      * right. exists (line :: before), l', after, e.
        split; [reflexivity|]. split.
        -- intros i l Hl. destruct i as [|i].
           ++ injection Hl as <-. rewrite Nat.add_0_r. eauto.
           ++ replace (start + S i) with (S start + i) by lia. apply Hb, Hl.
        -- cbn [List.length]. replace (start + S (List.length before))
             with (S start + List.length before) by lia. exact He.
    + right. exists [], line, rest, e.
      split; [reflexivity|]. split.
      * intros i l H. destruct i; discriminate H.
      * rewrite Nat.add_0_r. exact Hr.
Qed.

(** The labels of finalized panels are their lines. *)
Lemma labels_of_done (ls : list jsstring) (done : list StoryboardPanel) :
  List.length done = List.length ls ->
  (forall i l, nth_error ls i = Some l ->
     exists r, generateContent env i (panel_request ch l) = Returned r) ->
  (forall i l r,
     nth_error ls i = Some l ->
     generateContent env i (panel_request ch l) = Returned r ->
     nth_error done i = Some (finished_panel (date_random env i) l r)) ->
  map prompt done = ls.
Proof.
  intros Hlen Hret Hnth. apply nth_error_ext. intros i.
  rewrite nth_error_map.
  destruct (nth_error ls i) as [l|] eqn:E.
  - destruct (Hret i l E) as [r Hr]. rewrite (Hnth i l r E Hr).
    cbn [option_map]. unfold finished_panel.
    destruct (imagePart_inlineData r); reflexivity.
  - apply nth_error_None in E.
    destruct (nth_error done i) eqn:F; [|reflexivity].
    assert (nth_error done i <> None) by congruence.
    apply nth_error_Some in H. lia.
Qed.

(** The shape of every run that passes the guards and builds its
    client: some number [k] of lines go through, and then either the
    script is exhausted, or the call of line [k] throws. *)
Lemma run_shape (st : State) :
  character st = Some ch ->
  blank (script st) = false ->
  new_GoogleGenAI env = None ->
  let lines := scriptLines (script st) in
  let w := fst (handleGenerate env (init_world st)) in
  exists k done,
    k <= List.length lines
    /\ List.length done = k
    /\ map prompt done = firstn k lines
    /\ isLoading (state w) = false
    /\ ((k = List.length lines
         /\ storyboard (state w) = done
         /\ trace w = EvStoryboard [] :: iteration_events ch 0 lines done
         /\ error (state w) = None)
        \/ (exists line e,
              nth_error lines k = Some line
              /\ generateContent env k (panel_request ch line) = Rejected e
              /\ storyboard (state w) = done ++ [placeholder done]
              /\ trace w = (EvStoryboard []
                            :: iteration_events ch 0 (firstn k lines) done)
                           ++ [EvStoryboard (done ++ [placeholder done]);
                               EvCall (panel_request ch line)]
              /\ error (state w)
                 = Some (error_message e
                           (lit "An unknown error occurred during generation.")))).
Proof.
  intros Hch Hb Hnew lines w.
  destruct (first_rejection lines 0)
    as [Hall | (before & line & after & e & Hlines & Hbefore & He)].
  - destruct (@for_lines_returns env ch lines [] (run_start st) eq_refl Hall)
      as (done & Hrun & Hlen & _ & Hnth).
    cbn [List.length plus] in Hlen.
    pose proof (@handleGenerate_run env ch st Hch Hb) as Hgen.
    rewrite Hnew in Hgen. fold lines in Hgen. rewrite Hrun in Hgen.
    exists (List.length lines), done.
    split; [lia|]. split; [exact Hlen|]. split.
    { rewrite firstn_all. apply labels_of_done; [exact Hlen | exact Hall |].
      intros i l r Hl Hr. apply (Hnth i l r Hl Hr). }
    subst w. rewrite Hgen. split; [reflexivity|]. left.
    repeat split; reflexivity.
  - cbn [plus] in Hbefore, He.
    destruct (@reached_rejected env st ch before line after Hch Hlines Hnew
                Hbefore e He)
      as (done & Hlen & Hnth & Hsb & Htr & Herr & Hload).
    fold w in Hsb, Htr, Herr, Hload.
    assert (Hfirst : firstn (List.length before) lines = before).
    { rewrite Hlines, firstn_app, Nat.sub_diag, firstn_all.
      cbn [firstn]. apply app_nil_r. }
    exists (List.length before), done.
    split. { rewrite Hlines, length_app. lia. }
    split; [exact Hlen|]. split.
    { rewrite Hfirst. apply labels_of_done; assumption. }
    split; [exact Hload|]. right. exists line, e.
    split. { rewrite Hlines, nth_error_app2, Nat.sub_diag by lia.
             reflexivity. }
    split; [exact He|]. split; [exact Hsb|]. split; [|exact Herr].
    rewrite Hfirst. exact Htr.
Qed.

Lemma firstn_succ_nth_error {A} (l : list A) :
  forall k x, nth_error l k = Some x -> firstn (S k) l = firstn k l ++ [x].
Proof.
  induction l as [|a l IH]; intros [|k] x H; try discriminate H.
  - injection H as <-. reflexivity.
  - cbn [nth_error] in H. cbn [firstn app]. f_equal.
    apply (IH k x H).
Qed.

Lemma calls_of_run_trace (ls : list jsstring) (done : list StoryboardPanel) :
  calls_of (EvStoryboard [] :: iteration_events ch 0 ls done)
  = map (panel_request ch) ls.
Proof.
  change (EvStoryboard [] :: iteration_events ch 0 ls done)
    with ([EvStoryboard []] ++ iteration_events ch 0 ls done).
  rewrite calls_of_app, calls_of_iteration_events. reflexivity.
Qed.

Lemma published_lengths_run_trace (ls : list jsstring)
  (done : list StoryboardPanel) :
  List.length ls <= List.length done ->
  map (@List.length _)
      (published_of (EvStoryboard [] :: iteration_events ch 0 ls done))
  = full_lengths (List.length ls).
Proof.
  intros H.
  change (EvStoryboard [] :: iteration_events ch 0 ls done)
    with ([EvStoryboard []] ++ iteration_events ch 0 ls done).
  rewrite published_of_app, map_app, published_lengths_iteration_events by exact H.
  reflexivity.
Qed.

Lemma length_double_steps (k0 k : nat) :
  List.length (flat_map (fun j => [S j; S j]) (seq k0 k)) = 2 * k.
Proof.
  revert k0; induction k as [|k IH]; intros k0; [reflexivity|].
  cbn [seq flat_map app List.length]. rewrite IH. lia.
Qed.

(** The first [1 + 2 k] lengths of a full run, and the next one. *)
Lemma full_lengths_prefix (N k : nat) :
  k <= N ->
  firstn (1 + 2 * k) (full_lengths N) = full_lengths k.
Proof.
  intros H. destruct (Nat.le_exists_sub k N H) as (d & -> & _).
  rewrite (Nat.add_comm d k). unfold full_lengths.
  rewrite seq_app, flat_map_app.
  change (1 + 2 * k) with (S (2 * k)). rewrite firstn_cons. f_equal.
  replace (2 * k)
    with (List.length (flat_map (fun j => [S j; S j]) (seq 0 k)) + 0)
    by (rewrite length_double_steps; lia).
  rewrite firstn_app_2, firstn_0. apply app_nil_r.
Qed.

Lemma full_lengths_prefix_succ (N k : nat) :
  k < N ->
  firstn (2 + 2 * k) (full_lengths N) = full_lengths k ++ [S k].
Proof.
  intros H. destruct (Nat.le_exists_sub (S k) N H) as (d & -> & _).
  rewrite (Nat.add_comm d (S k)). unfold full_lengths.
  replace (S k + d) with (k + S d) by lia.
  rewrite seq_app, flat_map_app.
  change (2 + 2 * k) with (S (1 + 2 * k)). rewrite firstn_cons.
  rewrite <- app_comm_cons. f_equal.
  replace (1 + 2 * k)
    with (List.length (flat_map (fun j => [S j; S j]) (seq 0 k)) + 1)
    by (rewrite length_double_steps; lia).
  rewrite firstn_app_2. reflexivity.
Qed.

End AnyRun.

Section AnyRunProperties.

Import StoryboardGenerator.

(** The requests of a run are those of the first lines, as many as the
    panel list has entries at the end. *)
Lemma run_calls_prefix (env : Env) (st : State) (ch : CharacterReference) :
  character st = Some ch ->
  blank (script st) = false ->
  let lines := scriptLines (script st) in
  let w := fst (handleGenerate env (init_world st)) in
  calls_of (trace w)
  = map (panel_request ch) (firstn (List.length (storyboard (state w))) lines)
  /\ List.length (storyboard (state w)) <= List.length lines.
Proof.
  intros Hch Hb lines w.
  destruct (new_GoogleGenAI env) as [e|] eqn:Hnew.
  - subst w. rewrite (@handleGenerate_run env ch st Hch Hb), Hnew.
    cbn. split; [reflexivity | lia].
  - destruct (@run_shape env ch st Hch Hb Hnew)
      as (k & done & Hk & Hlen & _ & _ & Hcase).
    fold lines in Hk, Hcase. fold w in Hcase.
    destruct Hcase as [(HkN & Hsb & Htr & _)
                      | (line & e & Hline & _ & Hsb & Htr & _)].
    + rewrite Hsb, Htr, Hlen, HkN, firstn_all, calls_of_run_trace.
      split; [reflexivity | lia].
    + assert (k < List.length lines)
        by (apply nth_error_Some; congruence).
      rewrite Hsb, Htr, length_app, Hlen. cbn [List.length].
      replace (k + 1) with (S k) by lia.
      rewrite (firstn_succ_nth_error _ _ Hline), map_app.
      rewrite calls_of_app, calls_of_run_trace. split; [reflexivity | lia].
Qed.

(** X4. A storyboard submission, whatever the state and whatever the
    service does: the handler never throws, and it never changes the
    character reference, the script, the description, the acquisition
    mode or the creation flag. When both guards pass it ends not busy;
    otherwise the busy flag is as before. *)
Theorem X4_run_frame (env : Env) (st : State) :
  let res := handleGenerate env (init_world st) in
  let st' := state (fst res) in
  snd res = Normal tt
  /\ character st' = character st
  /\ script st' = script st
  /\ characterDescription st' = characterDescription st
  /\ characterCreationMode st' = characterCreationMode st
  /\ isCreatingCharacter st' = isCreatingCharacter st
  /\ isLoading st'
     = if is_some (character st) && negb (blank (script st)) then false
       else isLoading st.
Proof.
  intros res st'. subst st' res.
  destruct (character st) as [ch|] eqn:Hch.
  2:{ unfold handleGenerate, bind, get. cbn [init_world state]. rewrite Hch.
      cbn. rewrite Hch. repeat split; reflexivity. }
  destruct (blank (script st)) eqn:Hb.
  { unfold handleGenerate, bind, get. cbn [init_world state].
    rewrite Hch, truthy_trim, Hb. cbn. rewrite Hch. repeat split; reflexivity. }
  rewrite (@handleGenerate_run env ch st Hch Hb). cbn [is_some negb andb].
  destruct (new_GoogleGenAI env) as [e|].
  { cbn. rewrite Hch. repeat split; reflexivity. }
  destruct (@for_lines_extends env ch (scriptLines (script st)) []
              (run_start st) eq_refl) as (more & tr & Hst & _).
  destruct (for_lines env ch (scriptLines (script st)) [] (run_start st))
    as [wl [np|e]]; cbn [fst] in Hst;
    unfold run_finished, run_caught, on_state; cbn [fst snd state];
    rewrite Hst; cbn; rewrite Hch; repeat split; reflexivity.
Qed.

(** X5. In every run that passes the guards, whatever the service
    does, the requests issued are those of the first lines of the work
    plan, in script order and without gap or repetition, and there are
    exactly as many of them as there are entries in the panel list the
    run ends with, never more than there are lines. Each request
    carries two parts: the character image, then a text. *)
Theorem X5_calls_follow_the_plan (env : Env) (st : State)
  (ch : CharacterReference) :
  character st = Some ch ->
  blank (script st) = false ->
  let lines := scriptLines (script st) in
  let w := fst (handleGenerate env (init_world st)) in
  calls_of (trace w)
  = map (panel_request ch) (firstn (List.length (storyboard (state w))) lines)
  /\ List.length (storyboard (state w)) <= List.length lines
  /\ List.length (calls_of (trace w)) = List.length (storyboard (state w))
  /\ Forall (fun req =>
               exists text,
                 parts req = [InlineDataPart {| data := cr_base64 ch;
                                                mimeType := cr_mimeType ch |};
                              TextPart text])
            (calls_of (trace w)).
Proof.
  intros Hch Hb lines w.
  pose proof (@run_calls_prefix env st ch Hch Hb) as H. fold lines w in H.
  destruct H as [Hcalls Hle].
  split; [exact Hcalls|]. split; [exact Hle|]. split.
  - rewrite Hcalls, length_map, length_firstn. lia.
  - rewrite Hcalls. apply Forall_map, Forall_forall. intros line _.
    eexists. reflexivity.
Qed.

Lemma X5_calls_follow_the_plan_witness :
  let env := env_except 1 (Rejected failed_to_fetch) in
  let w := fst (handleGenerate env (init_world (ready two_lines))) in
  calls_of (trace w)
  = map (panel_request sample_character)
        (firstn (List.length (storyboard (state w))) (scriptLines two_lines))
  /\ List.length (storyboard (state w)) <= 2
  /\ List.length (calls_of (trace w)) = List.length (storyboard (state w)).
Proof.
  intros env w.
  destruct (@X5_calls_follow_the_plan env (ready two_lines) sample_character
              eq_refl eq_refl) as (H1 & H2 & H3 & _).
  split; [exact H1|]. split; [exact H2 | exact H3].
Defined.

(** X6. In every run that passes the guards, whatever the service
    does, the lengths of the successively published panel lists are an
    initial part of 0, 1, 1, 2, 2, ..., N, N for the N lines of the work
    plan: the list is emptied first, then grows by one entry at a time
    and never shrinks. *)
Theorem X6_published_lengths_grow (env : Env) (st : State)
  (ch : CharacterReference) :
  character st = Some ch ->
  blank (script st) = false ->
  let N := List.length (scriptLines (script st)) in
  let w := fst (handleGenerate env (init_world st)) in
  exists m,
    1 <= m
    /\ map (@List.length _) (published_of (trace w)) = firstn m (full_lengths N).
Proof.
  intros Hch Hb N w.
  destruct (new_GoogleGenAI env) as [e|] eqn:Hnew.
  { exists 1. subst w. rewrite (@handleGenerate_run env ch st Hch Hb), Hnew.
    split; [lia | reflexivity]. }
  destruct (@run_shape env ch st Hch Hb Hnew)
    as (k & done & Hk & Hlen & _ & _ & Hcase).
  fold N in Hk. fold w in Hcase.
  destruct Hcase as [(HkN & _ & Htr & _) | (line & e & Hline & _ & _ & Htr & _)].
  - exists (1 + 2 * N). split; [lia|].
    rewrite Htr, published_lengths_run_trace by (fold N; lia).
    fold N. symmetry. apply full_lengths_prefix. lia.
  - assert (HkN : k < N) by (apply nth_error_Some; congruence).
    assert (Hf : List.length (firstn k (scriptLines (script st))) = k)
      by (apply firstn_length_le; fold N; lia).
    exists (2 + 2 * k). split; [lia|].
    rewrite Htr, published_of_app, map_app, published_lengths_run_trace
      by (rewrite Hf; lia).
    rewrite Hf, full_lengths_prefix_succ by exact HkN.
    cbn [published_of flat_map app map]. rewrite length_app, Hlen.
    cbn [List.length]. repeat f_equal. lia.
Qed.

Lemma X6_published_lengths_grow_witness :
  let env := env_except 1 (Rejected failed_to_fetch) in
  let w := fst (handleGenerate env (init_world (ready two_lines))) in
  map (@List.length _) (published_of (trace w)) = [0; 1; 1; 2]
  /\ exists m,
       1 <= m
       /\ map (@List.length _) (published_of (trace w)) = firstn m (full_lengths 2).
Proof.
  intros env w. split; [reflexivity|].
  exact (@X6_published_lengths_grow env (ready two_lines) sample_character
           eq_refl eq_refl).
Defined.

(** X7. A run that passes the guards and ends without an error message
    went through the whole work plan: every line was requested, in
    order, and the panel list has one panel per line, labelled with the
    lines in script order, none of them a placeholder (every image
    value is set). *)
Theorem X7_clean_finish_is_complete (env : Env) (st : State)
  (ch : CharacterReference) :
  character st = Some ch ->
  blank (script st) = false ->
  let lines := scriptLines (script st) in
  let w := fst (handleGenerate env (init_world st)) in
  error (state w) = None ->
  map prompt (storyboard (state w)) = lines
  /\ calls_of (trace w) = map (panel_request ch) lines
  /\ Forall (fun panel => src panel <> []) (storyboard (state w)).
Proof.
  intros Hch Hb lines w Herr.
  destruct (new_GoogleGenAI env) as [e|] eqn:Hnew.
  { subst w. rewrite (@handleGenerate_run env ch st Hch Hb), Hnew in Herr.
    discriminate Herr. }
  destruct (@first_rejection env ch lines 0)
    as [Hall | (before & line & after & e & Hlines & Hbefore & He)].
  - destruct (@for_lines_returns env ch lines [] (run_start st) eq_refl Hall)
      as (done & Hrun & Hlen & _ & Hnth).
    cbn [List.length plus] in Hlen.
    pose proof (@handleGenerate_run env ch st Hch Hb) as Hgen.
    rewrite Hnew in Hgen. fold lines in Hgen. rewrite Hrun in Hgen.
    subst w. rewrite Hgen.
    cbn [fst run_finished on_state state trace storyboard with_isLoading
         with_storyboard run_start app].
    split; [|split].
    + apply (@labels_of_done env ch); [exact Hlen | exact Hall |].
      intros i l r Hl Hr. apply (Hnth i l r Hl Hr).
    + apply calls_of_run_trace.
    + apply Forall_forall. intros p Hp.
      apply In_nth_error in Hp. destruct Hp as [i Hi].
      assert (Hi' : i < List.length lines)
        by (rewrite <- Hlen; apply nth_error_Some; congruence).
      destruct (nth_error lines i) as [l|] eqn:Hl;
        [|apply nth_error_None in Hl; lia].
      destruct (Hall i l Hl) as [r Hr].
      pose proof (Hnth i l r Hl Hr) as Hp. cbn [List.length plus] in Hp.
      rewrite Hi in Hp. injection Hp as ->.
      unfold finished_panel. destruct (imagePart_inlineData r); discriminate.
  - cbn [plus] in Hbefore, He.
    destruct (@reached_rejected env st ch before line after Hch Hlines Hnew
                Hbefore e He) as (_ & _ & _ & _ & _ & Herr' & _).
    fold w in Herr'. rewrite Herr' in Herr. discriminate Herr.
Qed.

Lemma X7_clean_finish_is_complete_witness :
  let w := fst (handleGenerate env_images (init_world (ready two_lines))) in
  map prompt (storyboard (state w)) = [lit "A"; lit "B"]
  /\ calls_of (trace w)
     = map (panel_request sample_character) (scriptLines two_lines)
  /\ Forall (fun panel => src panel <> []) (storyboard (state w)).
Proof.
  exact (@X7_clean_finish_is_complete env_images (ready two_lines)
           sample_character eq_refl eq_refl eq_refl).
Defined.

End AnyRunProperties.

(** ** Lines, captions and tiles *)

Section LinesAndTiles.

Import StoryboardGenerator.

(** X8. When a run reaches a line that does not read "loading" and its
    call returns, the panel recorded at that position, and still there
    when the run ends, is labelled with the line and is rendered as the
    image when the response carried one (its data URL being the image
    value) and as the failure text when it did not; it is never
    rendered as the spinner. *)
Theorem X8_finished_tile (env : Env) (st : State) (ch : CharacterReference)
  (before : list jsstring) (line : jsstring) (after : list jsstring)
  (r : Response) :
  character st = Some ch ->
  scriptLines (script st) = before ++ line :: after ->
  new_GoogleGenAI env = None ->
  (forall i l, nth_error before i = Some l ->
     exists r', generateContent env i (panel_request ch l) = Returned r') ->
  generateContent env (List.length before) (panel_request ch line) = Returned r ->
  line <> lit "loading" ->
  let w := fst (handleGenerate env (init_world st)) in
  exists panel,
    nth_error (storyboard (state w)) (List.length before) = Some panel
    /\ prompt panel = line
    /\ match imagePart_inlineData r with
       | Some d => src panel = data_url d /\ tile panel = Completed
       | None => src panel = lit "error" /\ tile panel = Failed
       end.
Proof.
  intros Hch Hlines Hnew Hbefore Hr Hline w.
  destruct (@reached_returned env st ch before line after Hch Hlines Hnew
              Hbefore r Hr) as (done & more & tr & Hlen & Hsb & _).
  fold w in Hsb.
  exists (finished_panel (date_random env (List.length before)) line r).
  split.
  { rewrite Hsb, <- app_assoc, nth_error_app2 by lia.
    rewrite Hlen, Nat.sub_diag. reflexivity. }
  assert (Hne : str_eqb line (lit "loading") = false).
  { destruct (str_eqb line (lit "loading")) eqn:E; [|reflexivity].
    apply str_eqb_eq in E. contradiction. }
  unfold finished_panel.
  destruct (imagePart_inlineData r) as [d|]; cbn [prompt src];
    (split; [reflexivity|]); (split; [reflexivity|]);
    unfold tile; cbn [prompt src]; rewrite Hne.
  - rewrite data_url_not_error. reflexivity.
  - reflexivity.
Qed.

Lemma X8_finished_tile_witness :
  let env := env_except 0 (Returned text_response) in
  let w := fst (handleGenerate env (init_world (ready two_lines))) in
  exists panel,
    nth_error (storyboard (state w)) 0 = Some panel
    /\ prompt panel = lit "A"
    /\ src panel = lit "error" /\ tile panel = Failed.
Proof.
  intros env w.
  refine (@X8_finished_tile env (ready two_lines) sample_character
            [] (lit "A") [lit "B"] text_response
            eq_refl eq_refl eq_refl _ eq_refl _).
  - intros i l Hl. destruct i; discriminate Hl.
  - discriminate.
Defined.

Lemma after_first_before_first (sep : N) (s : jsstring) :
  after_first sep (before_first sep s) = None.
Proof.
  induction s as [|c r IH]; [reflexivity|].
  cbn [before_first]. destruct (N.eqb c sep) eqn:E; [reflexivity|].
  cbn [after_first]. rewrite E. exact IH.
Qed.

(** X9. A line whose caption field is blank (nothing, or white space
    only, between the first bar and the second bar or the end) is
    requested exactly like the scene text alone: no caption
    instruction is added. *)
Theorem X9_blank_caption_is_no_caption (ch : CharacterReference)
  (line rest : jsstring) :
  after_first BAR line = Some rest ->
  blank (before_first BAR rest) = true ->
  panel_request ch line = panel_request ch (before_first BAR line).
Proof.
  intros Hrest Hb. unfold panel_request, parse_line.
  rewrite (split_cons BAR line), Hrest, (split_cons BAR rest).
  rewrite (split_cons BAR (before_first BAR line)), after_first_before_first.
  rewrite (before_first_none _ _ (after_first_before_first BAR line)).
  cbn [map hd nth_error fst snd].
  apply trim_blank in Hb. rewrite Hb. reflexivity.
Qed.

Lemma X9_blank_caption_is_no_caption_witness :
  panel_request sample_character (lit "A |  | C")
  = panel_request sample_character (lit "A ").
Proof.
  exact (@X9_blank_caption_is_no_caption sample_character (lit "A |  | C")
           (lit "  | C") eq_refl eq_refl).
Defined.

Lemma split_fields_no_sep (sep : N) (s : jsstring) :
  ~ In sep (fst (split_fields sep s))
  /\ Forall (fun l => ~ In sep l) (snd (split_fields sep s)).
Proof.
  induction s as [|c r [IH1 IH2]]; [split; [intros []|constructor]|].
  cbn [split_fields]. destruct (split_fields sep r) as [h t]. cbn [fst snd] in *.
  destruct (N.eqb c sep) eqn:E; cbn [fst snd].
  - split; [intros []|]. constructor; assumption.
  - split; [|exact IH2]. intros [H|H]; [|contradiction].
    subst c. rewrite N.eqb_refl in E. discriminate E.
Qed.

(** X10. The work plan of a script has no line exactly when the script
    is blank, so a submission that passes the script guard always has
    at least one line; and every line of a work plan is non-blank and
    contains no newline. *)
Theorem X10_work_plan (script : jsstring) :
  (scriptLines script = [] <-> blank script = true)
  /\ Forall (fun line => blank line = false /\ ~ In LF line) (scriptLines script).
Proof.
  split.
  - split; [|apply blank_scriptLines].
    intros H. apply nonblank_lines_none.
    rewrite <- scriptLines_length, H. reflexivity.
  - apply Forall_forall. intros line Hin.
    split; [apply (scriptLines_nonblank _ _ Hin)|].
    unfold scriptLines in Hin. apply filter_In in Hin. destruct Hin as [Hin _].
    unfold split in Hin.
    destruct (split_fields_no_sep LF (trim script)) as [H1 H2].
    destruct (split_fields LF (trim script)) as [h t]. cbn [fst snd] in *.
    destruct Hin as [<-|Hin]; [exact H1|].
    rewrite Forall_forall in H2. apply H2, Hin.
Qed.

(** X11. A run that passes the guards and builds its client always
    starts on the first line of its work plan: after the emptied list
    it publishes the single placeholder "loading-0", and its first
    request is the one of the first line. *)
Theorem X11_run_starts_on_first_line (env : Env) (st : State)
  (ch : CharacterReference) :
  character st = Some ch ->
  blank (script st) = false ->
  new_GoogleGenAI env = None ->
  let w := fst (handleGenerate env (init_world st)) in
  exists first rest tr,
    scriptLines (script st) = first :: rest
    /\ trace w = [EvStoryboard [];
                  EvStoryboard [{| id := lit "loading-0"; src := [];
                                   prompt := lit "loading" |}];
                  EvCall (panel_request ch first)] ++ tr.
Proof.
  intros Hch Hb Hnew w.
  destruct (scriptLines (script st)) as [|first rest] eqn:Hl.
  { apply blank_scriptLines_inv in Hl. congruence. }
  exists first, rest.
  assert (Hnil : forall i l, nth_error (@nil jsstring) i = Some l ->
            exists r', generateContent env i (panel_request ch l) = Returned r')
    by (intros i l H; destruct i; discriminate H).
  destruct (generateContent env 0 (panel_request ch first)) as [r|e] eqn:Hr.
  - destruct (@reached_returned env st ch [] first rest Hch Hl Hnew Hnil r Hr)
      as (done & more & tr & Hlen & _ & Htr & _).
    fold w in Htr. destruct done; [|discriminate Hlen].
    exists (EvStoryboard
              ([] ++ [finished_panel (date_random env (List.length (@nil jsstring)))
                        first r]) :: tr).
    split; [reflexivity|]. rewrite Htr. reflexivity.
  - destruct (@reached_rejected env st ch [] first rest Hch Hl Hnew Hnil e Hr)
      as (done & Hlen & _ & _ & Htr & _).
    fold w in Htr. destruct done; [|discriminate Hlen].
    exists []. split; [reflexivity|]. rewrite Htr. reflexivity.
Qed.

Lemma X11_run_starts_on_first_line_witness :
  let env := env_except 0 (Rejected failed_to_fetch) in
  let w := fst (handleGenerate env (init_world (ready two_lines))) in
  exists first rest tr,
    scriptLines two_lines = first :: rest
    /\ trace w = [EvStoryboard [];
                  EvStoryboard [{| id := lit "loading-0"; src := [];
                                   prompt := lit "loading" |}];
                  EvCall (panel_request sample_character first)] ++ tr.
Proof.
  exact (@X11_run_starts_on_first_line (env_except 0 (Rejected failed_to_fetch))
           (ready two_lines) sample_character eq_refl eq_refl eq_refl).
Defined.

End LinesAndTiles.

(** ** Selecting a file *)

Section Files.

Lemma before_first_app (sep : N) (a b : jsstring) :
  ~ In sep a -> before_first sep (a ++ sep :: b) = a.
Proof.
  induction a as [|c a IH]; intros H.
  - cbn. rewrite N.eqb_refl. reflexivity.
  - cbn [app before_first]. destruct (N.eqb c sep) eqn:E.
    + apply N.eqb_eq in E. subst c. exfalso. apply H. left. reflexivity.
    + rewrite IH; [reflexivity|]. intros Hin. apply H. right. exact Hin.
Qed.

Lemma after_first_app (sep : N) (a b : jsstring) :
  ~ In sep a -> after_first sep (a ++ sep :: b) = Some b.
Proof.
  induction a as [|c a IH]; intros H.
  - cbn. rewrite N.eqb_refl. reflexivity.
  - cbn [app after_first]. destruct (N.eqb c sep) eqn:E.
    + apply N.eqb_eq in E. subst c. exfalso. apply H. left. reflexivity.
    + apply IH. intros Hin. apply H. right. exact Hin.
Qed.

Lemma before_first_no_sep (sep : N) (s : jsstring) :
  ~ In sep s -> before_first sep s = s.
Proof.
  induction s as [|c r IH]; intros H; [reflexivity|].
  cbn [before_first]. destruct (N.eqb c sep) eqn:E.
  - apply N.eqb_eq in E. subst c. exfalso. apply H. left. reflexivity.
  - rewrite IH; [reflexivity|]. intros Hin. apply H. right. exact Hin.
Qed.

(** X12. Selecting a file whose type starts with "image/", and which
    the reader loads as the data URL of that type with a base64
    payload (no comma in the type or in the payload), calls the upload
    handler with that file and exactly the payload; the preview then
    rendered for it is the reader's data URL again. The files after the
    first one play no part. *)
Theorem X12_selected_image_round_trip (reader : File -> ReadResult)
  (file : File) (others : list File) (payload : jsstring) :
  startsWith (lit "image/") (file_type file) = true ->
  reader file
  = Loaded (lit "data:" ++ file_type file ++ lit ";base64," ++ payload) ->
  ~ In COMMA (file_type file) ->
  ~ In COMMA payload ->
  handleFileChange reader (Some (file :: others))
  = Selected file (Some payload)
  /\ Loaded (input_preview {| ui_file := file; ui_base64 := payload |})
     = reader file.
Proof.
  intros Htype Hread Hc1 Hc2. split.
  - unfold handleFileChange, fileToBase64. rewrite Htype, Hread.
    change (lit ";base64," ++ payload)
      with (lit ";base64" ++ COMMA :: payload).
    rewrite !app_assoc. rewrite split_cons.
    rewrite after_first_app.
    + rewrite split_cons. cbn [nth_error].
      rewrite before_first_no_sep by exact Hc2. reflexivity.
    + intros Hin. rewrite <- app_assoc in Hin.
      apply in_app_or in Hin. destruct Hin as [Hin|Hin].
      * vm_compute in Hin. repeat (destruct Hin as [Hin|Hin]; [discriminate|]).
        exact Hin.
      * apply in_app_or in Hin. destruct Hin as [Hin|Hin]; [exact (Hc1 Hin)|].
        vm_compute in Hin. repeat (destruct Hin as [Hin|Hin]; [discriminate|]).
        exact Hin.
  - rewrite Hread. reflexivity.
Qed.

Lemma X12_selected_image_round_trip_witness :
  handleFileChange sample_reader (Some [png_file; pdf_file])
  = Selected png_file (Some (lit "UE5H"))
  /\ Loaded (input_preview {| ui_file := png_file; ui_base64 := lit "UE5H" |})
     = sample_reader png_file.
Proof.
  refine (@X12_selected_image_round_trip sample_reader png_file [pdf_file]
            (lit "UE5H") eq_refl eq_refl _ _).
  - vm_compute. intros H. repeat (destruct H as [H|H]; [discriminate|]). exact H.
  - vm_compute. intros H. repeat (destruct H as [H|H]; [discriminate|]). exact H.
Defined.

(** X13. The upload handler is called only for the first file of a
    selection, only when its type starts with "image/" and the reader
    loaded it, and then with the second comma-separated field of the
    loaded text (undefined when the text has no comma). A first file
    of another type gives the alert whatever the reader would do and
    whatever files follow. *)
Theorem X13_file_selection (reader : File -> ReadResult)
  (files : option (list File)) :
  (forall file base64,
     handleFileChange reader files = Selected file base64 ->
     exists others result,
       files = Some (file :: others)
       /\ startsWith (lit "image/") (file_type file) = true
       /\ reader file = Loaded result
       /\ base64 = nth_error (split COMMA result) 1)
  /\ (forall file others,
        files = Some (file :: others) ->
        startsWith (lit "image/") (file_type file) = false ->
        forall reader', handleFileChange reader' files = NotAnImage)
  /\ (forall file others,
        files = Some (file :: others) ->
        handleFileChange reader files = handleFileChange reader (Some [file])).
Proof.
  split; [|split].
  - intros file base64 H. unfold handleFileChange, fileToBase64 in H.
    destruct files as [[|f others]|]; try discriminate H.
    destruct (startsWith (lit "image/") (file_type f)) eqn:Ht; [|discriminate H].
    destruct (reader f) as [result|] eqn:Hr; [|discriminate H].
    injection H as <- <-. exists others, result. repeat split; assumption.
  - intros file others -> Ht reader'. unfold handleFileChange. rewrite Ht.
    reflexivity.
  - intros file others ->. reflexivity.
Qed.

Lemma X13_file_selection_witness :
  handleFileChange sample_reader (Some [pdf_file; png_file]) = NotAnImage
  /\ handleFileChange sample_reader (Some [png_file; pdf_file])
     = handleFileChange sample_reader (Some [png_file]).
Proof.
  destruct (X13_file_selection sample_reader (Some [pdf_file; png_file]))
    as (_ & H2 & _).
  destruct (X13_file_selection sample_reader (Some [png_file; pdf_file]))
    as (_ & _ & H3).
  split.
  - exact (H2 pdf_file [png_file] eq_refl eq_refl sample_reader).
  - exact (H3 png_file [pdf_file] eq_refl).
Defined.

End Files.

(** ** The shell and the buttons *)

Section ShellAndButtons.

(** X14. After any click on a navigation item exactly the selected
    workflow is mounted. From a state in which exactly the active
    workflow is mounted, selecting the workflow already shown changes
    nothing, its state included, and selecting the other one mounts it
    in its initial state and unmounts the one that was shown. *)
Theorem X14_one_workflow_mounted (app : App.State) (tool : App.Tool) :
  well_mounted (App.setActiveTool tool app) = true
  /\ (well_mounted app = true ->
      App.setActiveTool (App.activeTool app) app = app)
  /\ (well_mounted app = true ->
      App.setActiveTool (other_tool (App.activeTool app)) app
      = match App.activeTool app with
        | App.imageStudio =>
            {| App.activeTool := App.storyboard;
               App.imageStudio_instance := None;
               App.storyboard_instance := Some StoryboardGenerator.initial |}
        | App.storyboard =>
            {| App.activeTool := App.imageStudio;
               App.imageStudio_instance := Some ImageStudio.initial;
               App.storyboard_instance := None |}
        end).
Proof.
  destruct app as [active i s]. split; [|split].
  - destruct tool, i, s; reflexivity.
  - destruct active, i, s; cbn; intros H; try discriminate H; reflexivity.
  - destruct active, i, s; cbn; intros H; try discriminate H; reflexivity.
Qed.

Lemma X14_one_workflow_mounted_witness :
  well_mounted app_with_prompt = true
  /\ App.setActiveTool App.imageStudio app_with_prompt = app_with_prompt
  /\ App.storyboard_instance (App.setActiveTool App.storyboard app_with_prompt)
     = Some StoryboardGenerator.initial.
Proof.
  destruct (X14_one_workflow_mounted app_with_prompt App.imageStudio)
    as (_ & H2 & H3).
  split; [reflexivity|]. split.
  - exact (H2 eq_refl).
  - rewrite (H3 eq_refl : App.setActiveTool App.storyboard app_with_prompt = _).
    reflexivity.
Defined.

Lemma falsy_blank (s : jsstring) : truthy s = false -> blank s = true.
Proof. destruct s; [reflexivity | discriminate]. Qed.

(** X15. Each submit button is disabled only in states in which its
    handler, were it invoked while not busy, would refuse the
    submission: it sets a validation message and requests nothing from
    the service. *)
Theorem X15_disabled_button_means_refusal (env : Env) :
  (forall st,
     studio_generate_disabled st = true ->
     ImageStudio.isLoading st = false ->
     ImageStudio.handleGenerate env (init_world st)
     = (init_world (ImageStudio.with_error (Some (lit "Please enter a prompt.")) st),
        Normal tt))
  /\ (forall st,
        character_generate_disabled st = true ->
        StoryboardGenerator.isCreatingCharacter st = false ->
        StoryboardGenerator.handleCreateCharacter env (init_world st)
        = (init_world
             (StoryboardGenerator.with_error
                (Some (lit "Please describe the character you want to create.")) st),
           Normal tt))
  /\ (forall st,
        storyboard_generate_disabled st = true ->
        StoryboardGenerator.isLoading st = false ->
        exists m,
          StoryboardGenerator.handleGenerate env (init_world st)
          = (init_world (StoryboardGenerator.with_error (Some m) st), Normal tt)).
Proof.
  split; [|split].
  - intros st Hd Hl. unfold studio_generate_disabled in Hd.
    rewrite Hl, orb_false_r in Hd. apply negb_true_iff, falsy_blank in Hd.
    unfold ImageStudio.handleGenerate, bind, get. cbn [init_world state].
    rewrite truthy_trim, Hd. reflexivity.
  - intros st Hd Hl. unfold character_generate_disabled in Hd.
    rewrite Hl, orb_false_r in Hd. apply negb_true_iff, falsy_blank in Hd.
    unfold StoryboardGenerator.handleCreateCharacter, bind, get.
    cbn [init_world state]. rewrite truthy_trim, Hd. reflexivity.
  - intros st Hd Hl. unfold storyboard_generate_disabled in Hd.
    rewrite Hl, orb_false_r in Hd.
    unfold StoryboardGenerator.handleGenerate, bind, get. cbn [init_world state].
    destruct (StoryboardGenerator.character st) as [ch|].
    + cbn [is_some negb orb] in Hd. apply negb_true_iff, falsy_blank in Hd.
      rewrite truthy_trim, Hd. eexists. reflexivity.
    + eexists. reflexivity.
Qed.

Lemma X15_disabled_button_means_refusal_witness :
  exists m,
    StoryboardGenerator.handleGenerate env_images
      (init_world StoryboardGenerator.initial)
    = (init_world (StoryboardGenerator.with_error (Some m)
                     StoryboardGenerator.initial), Normal tt).
Proof.
  exact (proj2 (proj2 (X15_disabled_button_means_refusal env_images))
           StoryboardGenerator.initial eq_refl eq_refl).
Defined.

End ShellAndButtons.

(** ** Reading a response *)

Section Responses.

Lemma find_first {A} (f : A -> bool) (l : list A) (x : A) :
  find f l = Some x ->
  exists before after,
    l = before ++ x :: after /\ f x = true /\ Forall (fun y => f y = false) before.
Proof.
  induction l as [|a l IH]; [discriminate|].
  cbn [find]. destruct (f a) eqn:E.
  - intros H. injection H as <-. exists [], l. repeat split; [exact E | constructor].
  - intros H. destruct (IH H) as (before & after & -> & Hx & Hb).
    exists (a :: before), after. repeat split; [exact Hx|].
    constructor; assumption.
Qed.

(** X16. The image taken from a response is the inline data of the
    first part that carries some, among the parts of the first
    candidate: later candidates are never looked at, and a response
    without candidates, without content or without parts gives none. *)
Theorem X16_first_image_of_first_candidate (r : Response) :
  (forall d,
     imagePart_inlineData r = Some d ->
     exists c others ct before p after,
       candidates r = Some (c :: others)
       /\ content c = Some ct
       /\ content_parts ct = Some (before ++ p :: after)
       /\ rp_inlineData p = Some d
       /\ Forall (fun q => rp_inlineData q = None) before)
  /\ (forall c others,
        candidates r = Some (c :: others) ->
        imagePart_inlineData r
        = imagePart_inlineData {| candidates := Some [c] |})
  /\ (candidates r = None \/ candidates r = Some [] ->
      imagePart_inlineData r = None).
Proof.
  split; [|split].
  - intros d H. unfold imagePart_inlineData, imagePart in H.
    destruct (candidates r) as [[|c others]|]; try discriminate H.
    destruct (content c) as [ct|] eqn:Hc; [|discriminate H].
    destruct (content_parts ct) as [ps|] eqn:Hp; [|discriminate H].
    destruct (find (fun part => is_some (rp_inlineData part)) ps) as [p|] eqn:Hf;
      [|discriminate H].
    destruct (find_first _ _ Hf) as (before & after & -> & _ & Hb).
    exists c, others, ct, before, p, after.
    repeat split; try assumption; try reflexivity.
    eapply Forall_impl; [|exact Hb].
    intros q Hq. cbn in Hq. destruct (rp_inlineData q); [discriminate|reflexivity].
  - intros c others H. unfold imagePart_inlineData, imagePart. rewrite H.
    reflexivity.
  - intros [H|H]; unfold imagePart_inlineData, imagePart; rewrite H; reflexivity.
Qed.

Lemma X16_first_image_of_first_candidate_witness :
  imagePart_inlineData
    {| candidates := Some [{| content := None |};
                           {| content := Some {| content_parts :=
                                Some [{| rp_inlineData := Some sample_image |}] |} |}] |}
  = None.
Proof.
  exact (eq_trans
           (proj1 (proj2 (X16_first_image_of_first_candidate
                            {| candidates :=
                                 Some [{| content := None |};
                                       {| content := Some {| content_parts :=
                                            Some [{| rp_inlineData := Some sample_image |}]
                                          |} |}] |}))
              {| content := None |}
              [{| content := Some {| content_parts :=
                    Some [{| rp_inlineData := Some sample_image |}] |} |}]
              eq_refl)
           eq_refl).
Defined.

End Responses.

(** ** The character reference from upload to request *)

Section CharacterLifecycle.

Import StoryboardGenerator.

(** X17. After a character image is uploaded, every request of the
    next run that passes the script guard carries, as its first part,
    the uploaded file's base64 value and MIME type, whatever the
    service does; and after the character is cleared, a submission is
    refused with the character message, without any request and
    without touching the panel list. *)
Theorem X17_character_from_upload_to_request (env : Env) (st : State)
  (image : UploadedImage) :
  (let st1 := state (fst (handleImageUpload image (init_world st))) in
   blank (script st1) = false ->
   Forall (fun req =>
             exists text,
               parts req = [InlineDataPart {| data := ui_base64 image;
                                              mimeType := file_type (ui_file image) |};
                            TextPart text])
          (calls_of (trace (fst (handleGenerate env (init_world st1))))))
  /\ (let st2 := state (fst (handleClearCharacter (init_world st))) in
      handleGenerate env (init_world st2)
      = (init_world
           (with_error
              (Some (lit "Please upload or create a character reference image."))
              st2),
         Normal tt)
      /\ storyboard st2 = []).
Proof.
  split.
  - intros st1 Hb.
    destruct (@run_calls_prefix env st1
                {| cr_base64 := ui_base64 image;
                   cr_mimeType := file_type (ui_file image);
                   cr_file := Some (ui_file image) |} eq_refl Hb) as [Hcalls _].
    rewrite Hcalls. apply Forall_map, Forall_forall. intros line _.
    eexists. reflexivity.
  - cbn zeta. split; reflexivity.
Qed.

Lemma X17_character_from_upload_to_request_witness :
  let st1 := state (fst (handleImageUpload sample_upload
                           (init_world (with_script two_lines initial)))) in
  Forall (fun req =>
            exists text,
              parts req = [InlineDataPart {| data := ui_base64 sample_upload;
                                             mimeType := lit "image/jpeg" |};
                           TextPart text])
         (calls_of (trace (fst (handleGenerate env_images (init_world st1)))))
  /\ List.length (calls_of (trace (fst (handleGenerate env_images
                                          (init_world st1))))) = 2.
Proof.
  intros st1. split; [|reflexivity].
  exact (proj1 (X17_character_from_upload_to_request env_images
                  (with_script two_lines initial) sample_upload) eq_refl).
Defined.

(** X18. A run that passes the guards starts from scratch: what it
    requests, what it publishes and the state it ends in are the same
    whatever panel list, error message and busy flag the workflow had
    before. *)
Theorem X18_run_ignores_earlier_results (env : Env) (st : State)
  (ch : CharacterReference) (old : list StoryboardPanel)
  (err : option jsstring) (busy : bool) :
  character st = Some ch ->
  blank (script st) = false ->
  handleGenerate env
    (init_world (with_storyboard old (with_error err (with_isLoading busy st))))
  = handleGenerate env (init_world st).
Proof.
  intros Hch Hb.
  rewrite (@handleGenerate_run env ch st Hch Hb).
  rewrite (@handleGenerate_run env ch
             (with_storyboard old (with_error err (with_isLoading busy st)))
             Hch Hb).
  reflexivity.
Qed.

Lemma X18_run_ignores_earlier_results_witness :
  handleGenerate env_images
    (init_world
       (with_storyboard
          [{| id := sample_ids 7; src := lit "error"; prompt := lit "old" |}]
          (with_error (Some (lit "Failed to fetch"))
             (with_isLoading false (ready two_lines)))))
  = handleGenerate env_images (init_world (ready two_lines)).
Proof.
  exact (@X18_run_ignores_earlier_results env_images (ready two_lines)
           sample_character _ _ false eq_refl eq_refl).
Defined.

End CharacterLifecycle.
